(** * Pybricks train control: primary hub and observer hub

    A shallow embedding of [src/main_hub.py] (the primary hub driven by the
    handheld remote) and of [src/observer-hub.py] (the hub that mirrors the
    broadcast state), followed by the properties checked on them.
    [src/main-hub.py] is the primary hub before the blinking was added: the
    same methods, with [_get_led_color_for_speed] returning the stopped
    colour at speed 0 as [main_hub.py] does when
    [blink_profile_when_stopped] is off, and other defaults in its
    [Configuration].

    Layout: the Python numbers the code relies on ([PyNum]), the primary hub
    ([MainHub]), the observer hub ([ObserverHub]), the main loop of the
    primary hub ([MainHubLoop]) and the devices on the ports ([Devices]);
    then the proofs ([MainHubFacts], [ObserverFacts], [MainHubMore],
    [ObserverMore], [DeviceFacts], [TrainFacts]). *)

From Stdlib Require Import ZArith List Bool Lia.
From Stdlib Require String.
From Stdlib Require Import Floats.SpecFloat.
Import ListNotations.
Open Scope Z_scope.

(* ================================================================== *)
(** ** Python numbers *)
(* ================================================================== *)

Module PyNum.

(** A binary floating-point format: mantissa width and exponent of the
    infinities, as [SpecFloat] takes them.  CPython floats are [binary64];
    the MicroPython build on the hubs uses [binary32].  The hub model takes
    the format as a parameter. *)
Record FloatFormat := mkFormat { prec : Z; emax : Z }.

Definition binary64 : FloatFormat := mkFormat 53 1024.
Definition binary32 : FloatFormat := mkFormat 24 128.

(** [float(n)] for an integer [n], rounded to nearest even. *)
Definition of_int (fmt : FloatFormat) (n : Z) : spec_float :=
  binary_normalize (prec fmt) (emax fmt) n 0 false.

(** [a / b] on two integers: true division; [None] is ZeroDivisionError. *)
Definition truediv (fmt : FloatFormat) (a b : Z) : option spec_float :=
  if b =? 0 then None
  else Some (SFdiv (prec fmt) (emax fmt) (of_int fmt a) (of_int fmt b)).

(** [x * n] for a float [x] and an integer [n]. *)
Definition mul_int (fmt : FloatFormat) (x : spec_float) (n : Z) : spec_float :=
  SFmul (prec fmt) (emax fmt) x (of_int fmt n).

(** The signed mantissa of a finite float. *)
Definition signed (s : bool) (m : positive) : Z :=
  if s then Zneg m else Zpos m.

(** Three-way comparison of a float with an integer, on their exact values
    ([None] when the float is NaN, for which every ordering test is false). *)
Definition compare_int (x : spec_float) (n : Z) : option comparison :=
  match x with
  | S754_nan => None
  | S754_infinity s => Some (if s then Lt else Gt)
  | S754_zero _ => Some (0 ?= n)
  | S754_finite s m e =>
      Some (if 0 <=? e then (signed s m * 2 ^ e ?= n)
            else (signed s m ?= n * 2 ^ (- e)))
  end.

(** [x <= n] *)
Definition le_int (x : spec_float) (n : Z) : bool :=
  match compare_int x n with
  | Some Lt | Some Eq => true
  | _ => false
  end.

(** [n < x] *)
Definition int_lt (n : Z) (x : spec_float) : bool :=
  match compare_int x n with
  | Some Gt => true
  | _ => false
  end.



(** [int(x)] for a float: truncation toward zero; [None] stands for the
    ValueError raised on NaN and the OverflowError raised on an infinity. *)
Definition trunc (x : spec_float) : option Z :=
  match x with
  | S754_nan => None
  | S754_infinity _ => None
  | S754_zero _ => Some 0
  | S754_finite s m e =>
      let magnitude :=
        if 0 <=? e then Zpos m * 2 ^ e else Zpos m / 2 ^ (- e) in
      Some (if s then - magnitude else magnitude)
  end.

End PyNum.

(* ================================================================== *)
(** ** What both programs take from [pybricks.parameters] *)
(* ================================================================== *)

Module Color.
Inductive hue := RED | ORANGE | YELLOW | GREEN | BLUE | MAGENTA | VIOLET | WHITE.

(** [Color.GREEN * 0.3] is [scaled GREEN 30]: a hue with its brightness in
    percent. *)
Record t := scaled { base : hue; percent : Z }.
End Color.

(** The two ports of the City hub; [self.motors] holds one device on each. *)
Inductive Port := PortA | PortB.

(* ================================================================== *)
(** ** The primary hub: [src/main_hub.py] *)
(* ================================================================== *)

Module MainHub.
Import PyNum.

(** *** Configuration data *)

Module ButtonAction.
Inductive t := A_PLUS | A_MINUS | A_STOP | B_PLUS | B_MINUS | B_STOP | CENTER.

Definition eqb (a b : t) : bool :=
  match a, b with
  | A_PLUS, A_PLUS | A_MINUS, A_MINUS | A_STOP, A_STOP
  | B_PLUS, B_PLUS | B_MINUS, B_MINUS | B_STOP, B_STOP
  | CENTER, CENTER => true
  | _, _ => false
  end.
End ButtonAction.

(** The keys of [Configuration.button_mapping]. *)
Inductive MappingKey := UP | DOWN | STOP | SWITCH | B_UP | B_DOWN | B_STOP.

Record MotorProfile := mkMotorProfile {
  min_speed : Z;
  max_speed : Z;
  acceleration_step : Z;
  acceleration_delay : Z
}.

Record SpeedLEDConfig := mkSpeedLEDConfig {
  stopped : Color.t;
  slow : Color.t;
  medium : Color.t;
  fast : Color.t;
  profile_indicator : option Color.t;
  slow_threshold : Z;
  medium_threshold : Z;
  blink_interval_ms : Z
}.

Record Configuration := mkConfiguration {
  profile_a : MotorProfile;
  profile_b : MotorProfile;
  motor_a_direction : Z;
  motor_b_direction : Z;
  auto_acceleration : bool;
  watchdog_enabled : bool;
  should_broadcast : bool;
  broadcast_channel : Z;
  initial_light_value : Z;
  button_mapping : MappingKey -> ButtonAction.t;
  led_connected : Color.t;
  led_not_connected : Color.t;
  led_speed_profile_a : SpeedLEDConfig;
  led_speed_profile_b : SpeedLEDConfig;
  use_speed_based_leds : bool;
  blink_profile_when_stopped : bool
}.

(** [Configuration()] as [Configuration.__init__] builds it. *)
Definition default_button_mapping (k : MappingKey) : ButtonAction.t :=
  match k with
  | UP => ButtonAction.A_PLUS
  | DOWN => ButtonAction.A_MINUS
  | STOP => ButtonAction.A_STOP
  | SWITCH => ButtonAction.CENTER
  | B_UP => ButtonAction.B_PLUS
  | B_DOWN => ButtonAction.B_MINUS
  | B_STOP => ButtonAction.B_STOP
  end.

Definition default_configuration : Configuration := {|
  profile_a := mkMotorProfile 20 100 10 100;
  profile_b := mkMotorProfile 10 500 5 200;
  motor_a_direction := 1;
  motor_b_direction := -1;
  auto_acceleration := true;
  watchdog_enabled := false;
  should_broadcast := true;
  broadcast_channel := 1;
  initial_light_value := 0;
  button_mapping := default_button_mapping;
  led_connected := Color.scaled Color.GREEN 30;
  led_not_connected := Color.scaled Color.RED 50;
  led_speed_profile_a := {|
    stopped := Color.scaled Color.WHITE 20;
    slow := Color.scaled Color.YELLOW 50;
    medium := Color.scaled Color.ORANGE 50;
    fast := Color.scaled Color.RED 70;
    profile_indicator := Some (Color.scaled Color.GREEN 60);
    slow_threshold := 30;
    medium_threshold := 60;
    blink_interval_ms := 500 |};
  led_speed_profile_b := {|
    stopped := Color.scaled Color.WHITE 20;
    slow := Color.scaled Color.BLUE 50;
    medium := Color.scaled Color.MAGENTA 50;
    fast := Color.scaled Color.VIOLET 70;
    profile_indicator := Some (Color.scaled Color.RED 60);
    slow_threshold := 20;
    medium_threshold := 50;
    blink_interval_ms := 500 |};
  use_speed_based_leds := true;
  blink_profile_when_stopped := true
|}.

(** [Configuration()] of [src/main-hub.py]: no automatic acceleration, no
    broadcast; it has no blinking, which is [main_hub.py] with
    [blink_profile_when_stopped] off. *)
Definition earlier_configuration : Configuration := {|
  profile_a := profile_a default_configuration;
  profile_b := profile_b default_configuration;
  motor_a_direction := 1;
  motor_b_direction := -1;
  auto_acceleration := false;
  watchdog_enabled := false;
  should_broadcast := false;
  broadcast_channel := 1;
  initial_light_value := 0;
  button_mapping := default_button_mapping;
  led_connected := led_connected default_configuration;
  led_not_connected := led_not_connected default_configuration;
  led_speed_profile_a := led_speed_profile_a default_configuration;
  led_speed_profile_b := led_speed_profile_b default_configuration;
  use_speed_based_leds := true;
  blink_profile_when_stopped := false
|}.

(** *** The state the program runs on *)

(** [Timer]: [stopwatch] holds the instant of the last [StopWatch.reset()],
    so that [StopWatch.time()] is the clock minus it. *)
Record Timer := mkTimer {
  active : bool;
  target_time : Z;
  stopwatch : Z
}.

(** [RemoteController]: [remote] tells whether the [Remote] object is there
    (not [None]). *)
Record RemoteController := mkRemoteController {
  remote : bool;
  connected : bool
}.

(** One answer of [remote.buttons.pressed()]: the pressed buttons, or an
    OSError. *)
Inductive Poll :=
| Pressed (buttons : list ButtonAction.t)
| PollOSError.

(** What the program does to its surroundings, in the order it happens.
    The motor and light devices are logged at the call of
    [MotorDevice.set_speed] and [MotorDevice.set_light_brightness]. *)
Inductive Event :=
| MotorSetSpeed (port : Port) (speed : Z)
| MotorSetLight (port : Port) (brightness : Z)
| RemoteLed (color : Color.t)
| Broadcast (speed light : Z)
| Wait (ms : Z).

(** The fields of [MotorControlSystem] and of its [remote_controller],
    with the surroundings: the answers the remote will give to the coming
    polls (when they run out, no button is pressed), the clock in
    milliseconds, and the events so far. *)
Record World := mkWorld {
  current_speed : Z;
  previous_speed : Z;
  current_profile : Z;
  light_value : Z;
  has_lights : bool;
  led_blink_state : bool;
  blink_timer : Timer;
  remote_controller : RemoteController;
  polls : list Poll;
  clock : Z;
  trace : list Event
}.

Definition set_current_speed (v : Z) (w : World) : World :=
  mkWorld v (previous_speed w) (current_profile w) (light_value w)
    (has_lights w) (led_blink_state w) (blink_timer w) (remote_controller w)
    (polls w) (clock w) (trace w).

Definition set_previous_speed (v : Z) (w : World) : World :=
  mkWorld (current_speed w) v (current_profile w) (light_value w)
    (has_lights w) (led_blink_state w) (blink_timer w) (remote_controller w)
    (polls w) (clock w) (trace w).

Definition set_current_profile (v : Z) (w : World) : World :=
  mkWorld (current_speed w) (previous_speed w) v (light_value w)
    (has_lights w) (led_blink_state w) (blink_timer w) (remote_controller w)
    (polls w) (clock w) (trace w).

Definition set_light_value (v : Z) (w : World) : World :=
  mkWorld (current_speed w) (previous_speed w) (current_profile w) v
    (has_lights w) (led_blink_state w) (blink_timer w) (remote_controller w)
    (polls w) (clock w) (trace w).

Definition set_led_blink_state (v : bool) (w : World) : World :=
  mkWorld (current_speed w) (previous_speed w) (current_profile w)
    (light_value w) (has_lights w) v (blink_timer w) (remote_controller w)
    (polls w) (clock w) (trace w).

Definition set_blink_timer (v : Timer) (w : World) : World :=
  mkWorld (current_speed w) (previous_speed w) (current_profile w)
    (light_value w) (has_lights w) (led_blink_state w) v (remote_controller w)
    (polls w) (clock w) (trace w).

Definition set_remote_controller (v : RemoteController) (w : World) : World :=
  mkWorld (current_speed w) (previous_speed w) (current_profile w)
    (light_value w) (has_lights w) (led_blink_state w) (blink_timer w) v
    (polls w) (clock w) (trace w).

Definition set_polls (v : list Poll) (w : World) : World :=
  mkWorld (current_speed w) (previous_speed w) (current_profile w)
    (light_value w) (has_lights w) (led_blink_state w) (blink_timer w)
    (remote_controller w) v (clock w) (trace w).

Definition set_clock (v : Z) (w : World) : World :=
  mkWorld (current_speed w) (previous_speed w) (current_profile w)
    (light_value w) (has_lights w) (led_blink_state w) (blink_timer w)
    (remote_controller w) (polls w) v (trace w).

Definition set_trace (v : list Event) (w : World) : World :=
  mkWorld (current_speed w) (previous_speed w) (current_profile w)
    (light_value w) (has_lights w) (led_blink_state w) (blink_timer w)
    (remote_controller w) (polls w) (clock w) v.

(** The system right after [MotorControlSystem.__init__] and a successful
    [RemoteController.connect()]. *)
Definition initial_world (config : Configuration) (lights : bool)
    (script : list Poll) : World := {|
  current_speed := 0;
  previous_speed := 0;
  current_profile := 1;
  light_value := initial_light_value config;
  has_lights := lights;
  led_blink_state := false;
  blink_timer := mkTimer false 0 0;
  remote_controller := mkRemoteController true true;
  polls := script;
  clock := 0;
  trace := []
|}.

(** *** Computations: state, exceptions, and loops that wait *)

Inductive Exception := ZeroDivisionError.

(** A call returns a value, raises, or is still waiting in a loop when the
    fuel given to it is used up. *)
Inductive Outcome (A : Type) :=
| Returns (a : A) (w : World)
| Raises (e : Exception) (w : World)
| OutOfFuel.

Arguments Returns {A} a w.
Arguments Raises {A} e w.
Arguments OutOfFuel {A}.

Definition M (A : Type) : Type := World -> Outcome A.

Definition ret {A} (a : A) : M A := fun w => Returns a w.

Definition bind {A B} (m : M A) (k : A -> M B) : M B :=
  fun w =>
    match m w with
    | Returns a w' => k a w'
    | Raises e w' => Raises e w'
    | OutOfFuel => OutOfFuel
    end.

Notation "x <- c1 ;; c2" := (bind c1 (fun x => c2))
  (at level 61, c1 at next level, right associativity).
Notation "c1 ;; c2" := (bind c1 (fun _ => c2))
  (at level 61, right associativity).

Definition raise {A} (e : Exception) : M A := fun w => Raises e w.

Definition get {A} (field : World -> A) : M A := fun w => Returns (field w) w.

Definition modify (f : World -> World) : M unit := fun w => Returns tt (f w).

Definition when (b : bool) (m : M unit) : M unit := if b then m else ret tt.

Definition emit (e : Event) : M unit :=
  modify (fun w => set_trace (trace w ++ [e]) w).

(** [wait(ms)]: the only thing that lets time pass. *)
Definition wait (ms : Z) : M unit :=
  modify (fun w => set_clock (clock w + ms) w) ;; emit (Wait ms).

(** *** [Timer] *)

(** [StopWatch.time()] of a timer's stopwatch at instant [now]. *)
Definition Timer_time (now : Z) (t : Timer) : Z := now - stopwatch t.

(** [Timer.start(duration_ms)] *)
Definition Timer_start (duration_ms now : Z) (t : Timer) : Timer :=
  if negb (active t) then mkTimer true duration_ms now else t.

(** [Timer.check()]: the answer and the timer afterwards. *)
Definition Timer_check (now : Z) (t : Timer) : bool * Timer :=
  if active t && (target_time t <? Timer_time now t)
  then (true, mkTimer false 0 (stopwatch t))
  else (false, t).

(** [Timer.reset()] *)
Definition Timer_reset (t : Timer) : Timer := mkTimer false 0 (stopwatch t).

(** The three calls on [self.blink_timer]. *)
Definition blink_timer_check : M bool :=
  fun w =>
    let (elapsed, t) := Timer_check (clock w) (blink_timer w) in
    Returns elapsed (set_blink_timer t w).

Definition blink_timer_start (duration_ms : Z) : M unit :=
  modify (fun w =>
    set_blink_timer (Timer_start duration_ms (clock w) (blink_timer w)) w).

Definition blink_timer_reset : M unit :=
  modify (fun w => set_blink_timer (Timer_reset (blink_timer w)) w).

(** *** [RemoteController] *)

(** [RemoteController.is_button_pressed(action)].  [BUTTON_MAP] is one to
    one, so a pressed button is named by its action. *)
Definition is_button_pressed (action : ButtonAction.t) : M bool :=
  fun w =>
    let rc := remote_controller w in
    if negb (connected rc) || negb (remote rc) then Returns false w
    else
      match polls w with
      | [] => Returns false w
      | Pressed pressed_buttons :: rest =>
          Returns (existsb (ButtonAction.eqb action) pressed_buttons)
                  (set_polls rest w)
      | PollOSError :: rest =>
          Returns false
            (set_polls rest
               (set_remote_controller (mkRemoteController (remote rc) false) w))
      end.

(** [RemoteController.set_led(color)] *)
Definition set_led (color : Color.t) : M unit :=
  rc <- get remote_controller ;;
  when (connected rc && remote rc) (emit (RemoteLed color)).

(** *** [MotorControlSystem] *)

Section System.

Variable config : Configuration.
Variable fmt : FloatFormat.

Definition _get_current_profile (w : World) : MotorProfile :=
  if current_profile w =? 1 then profile_a config else profile_b config.

Definition _get_current_speed_led_config (w : World) : SpeedLEDConfig :=
  if current_profile w =? 1 then led_speed_profile_a config
  else led_speed_profile_b config.

Definition _get_stopped_led_color (speed_config : SpeedLEDConfig) : M Color.t :=
  elapsed <- blink_timer_check ;;
  when elapsed
    (modify (fun w => set_led_blink_state (negb (led_blink_state w)) w)) ;;
  timer <- get blink_timer ;;
  when (negb (active timer))
    (blink_timer_start (blink_interval_ms speed_config)) ;;
  blink <- get led_blink_state ;;
  if blink then
    ret (match profile_indicator speed_config with
         | None => fast speed_config
         | Some profile_color => profile_color
         end)
  else ret (stopped speed_config).

(** [(abs_speed / profile.max_speed) * 100] *)
Definition speed_percentage (abs_speed : Z) (profile : MotorProfile)
    : option spec_float :=
  match truediv fmt abs_speed (max_speed profile) with
  | None => None
  | Some ratio => Some (mul_int fmt ratio 100)
  end.

Definition _get_led_color_for_speed (speed : Z) : M Color.t :=
  if negb (use_speed_based_leds config) then
    profile_number <- get current_profile ;;
    ret (if profile_number =? 1 then Color.scaled Color.GREEN 30
         else Color.scaled Color.RED 50)
  else
    speed_config <- get _get_current_speed_led_config ;;
    profile <- get _get_current_profile ;;
    let abs_speed := Z.abs speed in
    if abs_speed =? 0 then
      if blink_profile_when_stopped config
      then _get_stopped_led_color speed_config
      else ret (stopped speed_config)
    else
      match speed_percentage abs_speed profile with
      | None => raise ZeroDivisionError
      | Some pct =>
          if le_int pct (slow_threshold speed_config)
          then ret (slow speed_config)
          else if le_int pct (medium_threshold speed_config)
          then ret (medium speed_config)
          else ret (fast speed_config)
      end.

Definition _broadcast_data : M unit :=
  speed <- get current_speed ;;
  light <- get light_value ;;
  emit (Broadcast speed light).

(** [for motor in self.motors: motor.set_speed(speed)] *)
Definition motors_set_speed (speed : Z) : M unit :=
  emit (MotorSetSpeed PortA speed) ;; emit (MotorSetSpeed PortB speed).

(** [for motor in self.motors: motor.set_light_brightness(brightness)] *)
Definition motors_set_light_brightness (brightness : Z) : M unit :=
  emit (MotorSetLight PortA brightness) ;;
  emit (MotorSetLight PortB brightness).

Definition _update_motor_speeds : M unit :=
  speed <- get current_speed ;;
  previous <- get previous_speed ;;
  when (negb (speed =? previous))
    (motors_set_speed speed ;;
     modify (set_previous_speed speed) ;;
     rc <- get remote_controller ;;
     when (connected rc)
       (led_color <- _get_led_color_for_speed speed ;; set_led led_color) ;;
     when (should_broadcast config) _broadcast_data).

(** [while self.remote_controller.is_button_pressed(action): wait(100)] *)
Fixpoint wait_released (fuel : nat) (action : ButtonAction.t) : M unit :=
  match fuel with
  | O => fun _ => OutOfFuel
  | S fuel' =>
      pressed <- is_button_pressed action ;;
      if pressed then wait 100 ;; wait_released fuel' action else ret tt
  end.

(** The body of the [for] loop of [_accelerate], up to and including the
    [wait]. *)
Definition accelerate_tick (profile : MotorProfile) (direction : Z) : M unit :=
  modify (fun w => set_current_speed (current_speed w + direction) w) ;;
  speed <- get current_speed ;;
  (if max_speed profile <? speed
   then modify (set_current_speed (max_speed profile))
   else when (speed <? - max_speed profile)
          (modify (set_current_speed (- max_speed profile)))) ;;
  speed <- get current_speed ;;
  (if (0 <? Z.abs speed) && (Z.abs speed <? min_speed profile)
   then modify (set_current_speed
                  (min_speed profile * (if 0 <? direction then 1 else -1)))
   else when (Z.abs speed <? min_speed profile)
          (modify (set_current_speed 0))) ;;
  _update_motor_speeds ;;
  wait (acceleration_delay profile).

(** [for _ in range(n): ...] with its [break] at speed 0. *)
Fixpoint accelerate_loop (profile : MotorProfile) (direction : Z) (n : nat)
    : M unit :=
  match n with
  | O => ret tt
  | S n' =>
      accelerate_tick profile direction ;;
      speed <- get current_speed ;;
      if speed =? 0 then ret tt else accelerate_loop profile direction n'
  end.

Definition _accelerate (fuel : nat) (profile : MotorProfile) (direction : Z)
    : M unit :=
  accelerate_loop profile direction (Z.to_nat (acceleration_step profile)) ;;
  let button_action :=
    if 0 <? direction then button_mapping config UP
    else button_mapping config DOWN in
  when (negb (auto_acceleration config)) (wait_released fuel button_action) ;;
  speed <- get current_speed ;;
  when (speed =? 0) (wait_released fuel button_action).

Definition _handle_speed_control (fuel : nat) : M unit :=
  profile <- get _get_current_profile ;;
  up <- is_button_pressed (button_mapping config UP) ;;
  up_only <- (if up
              then stop <- is_button_pressed (button_mapping config STOP) ;;
                   ret (negb stop)
              else ret false) ;;
  if up_only then _accelerate fuel profile 1
  else
    down <- is_button_pressed (button_mapping config DOWN) ;;
    down_only <- (if down
                  then stop <- is_button_pressed (button_mapping config STOP) ;;
                       ret (negb stop)
                  else ret false) ;;
    if down_only then _accelerate fuel profile (-1)
    else
      stop <- is_button_pressed (button_mapping config STOP) ;;
      when stop
        (modify (set_current_speed 0) ;; _update_motor_speeds ;; wait 100).

Definition _handle_light_control : M unit :=
  up <- is_button_pressed (button_mapping config B_UP) ;;
  up_only <- (if up
              then stop <- is_button_pressed (button_mapping config B_STOP) ;;
                   ret (negb stop)
              else ret false) ;;
  wait_time <-
    (if up_only then
       modify (fun w => set_light_value (Z.min 100 (light_value w + 10)) w) ;;
       ret 100
     else
       down <- is_button_pressed (button_mapping config B_DOWN) ;;
       down_only <- (if down
                     then stop <- is_button_pressed
                                    (button_mapping config B_STOP) ;;
                          ret (negb stop)
                     else ret false) ;;
       if down_only then
         modify (fun w => set_light_value (Z.max 0 (light_value w - 10)) w) ;;
         ret 100
       else
         stop <- is_button_pressed (button_mapping config B_STOP) ;;
         if stop then
           modify (fun w =>
             set_light_value (if light_value w =? 0 then 100 else 0) w) ;;
           ret 300
         else ret 0) ;;
  when (0 <? wait_time)
    (when (should_broadcast config) _broadcast_data ;;
     lights <- get has_lights ;;
     when lights (light <- get light_value ;;
                  motors_set_light_brightness light) ;;
     wait wait_time).

Definition _handle_profile_switch (fuel : nat) : M unit :=
  switch <- is_button_pressed (button_mapping config SWITCH) ;;
  when switch
    (modify (fun w =>
       set_current_profile (if current_profile w =? 1 then 2 else 1) w) ;;
     blink_timer_reset ;;
     modify (set_led_blink_state true) ;;
     rc <- get remote_controller ;;
     when (connected rc)
       (speed <- get current_speed ;;
        led_color <- _get_led_color_for_speed speed ;;
        set_led led_color) ;;
     wait_released fuel (button_mapping config SWITCH)).

(** [n] calls of a handler, one after the other. *)
Fixpoint repeat_call (n : nat) (call : M unit) : M unit :=
  match n with
  | O => ret tt
  | S n' => call ;; repeat_call n' call
  end.

End System.

(** *** The speed in isolation

    What one turn of the [for] loop of [_accelerate], and the loop as a
    whole, do to [current_speed]: the same tests as [accelerate_tick] and
    [accelerate_loop], on the number alone. *)

Definition tick_speed (profile : MotorProfile) (direction speed : Z) : Z :=
  let incremented := speed + direction in
  let limited :=
    if max_speed profile <? incremented then max_speed profile
    else if incremented <? - max_speed profile then - max_speed profile
    else incremented in
  if (0 <? Z.abs limited) && (Z.abs limited <? min_speed profile)
  then min_speed profile * (if 0 <? direction then 1 else -1)
  else if Z.abs limited <? min_speed profile then 0
  else limited.

Fixpoint loop_speed (profile : MotorProfile) (direction : Z) (n : nat)
    (speed : Z) : Z :=
  match n with
  | O => speed
  | S n' =>
      let speed' := tick_speed profile direction speed in
      if speed' =? 0 then speed' else loop_speed profile direction n' speed'
  end.

(** The speed after [calls] calls of [_accelerate]. *)
Fixpoint ramp_speed (profile : MotorProfile) (direction : Z) (calls : nat)
    (speed : Z) : Z :=
  match calls with
  | O => speed
  | S calls' =>
      ramp_speed profile direction calls'
        (loop_speed profile direction
           (Z.to_nat (acceleration_step profile)) speed)
  end.

(** A speed a profile allows to be held: at most [max_speed] in magnitude,
    and not strictly between 0 and [min_speed]. *)
Definition speed_legal (profile : MotorProfile) (speed : Z) : Prop :=
  Z.abs speed <= max_speed profile
  /\ ~ (0 < Z.abs speed < min_speed profile).

(** The part of the world that only the handlers of the remote's buttons
    change: what [_update_motor_speeds], the LED code and [wait] leave
    alone. *)
Definition controls (w : World)
    : Z * Z * Z * bool * RemoteController * list Poll :=
  (current_speed w, current_profile w, light_value w, has_lights w,
   remote_controller w, polls w).

(** The blink state the LED code reads: the toggle, the timer's flag and
    target, and the time on its stopwatch. *)
Definition blink_view (w : World) : bool * bool * Z * Z :=
  (led_blink_state w, active (blink_timer w), target_time (blink_timer w),
   clock w - stopwatch (blink_timer w)).





End MainHub.

(* ================================================================== *)
(** ** The observer hub: [src/observer-hub.py] *)
(* ================================================================== *)

Module ObserverHub.
Import PyNum.

(** *** Received values *)

(** What [hub.ble.observe] can hand over: [None], or whatever the sender
    broadcast, a single value or a tuple of values. *)
#[local] Unset Elimination Schemes.
Inductive PyVal :=
| PyNone
| PyBool (b : bool)
| PyInt (n : Z)
| PyFloat (x : spec_float)
| PyStr (s : String.string)
| PyBytes (s : String.string)
| PyTuple (items : list PyVal)
| PyList (items : list PyVal).
#[local] Set Elimination Schemes.

(** A call of [hub.ble.observe(channel)]: it returns, or it raises. *)
Inductive Observe :=
| ObserveReturns (data : PyVal)
| ObserveRaises.

Record ObserverConfiguration := mkObserverConfiguration {
  observe_channel : Z;
  connection_timeout_ms : Z;
  motor_a_direction : Z;
  motor_b_direction : Z;
  initial_light_value : Z;
  led_receiving : Color.t;
  led_not_receiving : Color.t;
  enable_debug_output : bool;
  max_speed_value : Z;
  max_light_value : Z
}.

(** [ObserverConfiguration()] with the defaults of the dataclass, which are
    also the values [main] passes. *)
Definition default_configuration : ObserverConfiguration := {|
  observe_channel := 1;
  connection_timeout_ms := 1000;
  motor_a_direction := 1;
  motor_b_direction := -1;
  initial_light_value := 0;
  led_receiving := Color.scaled Color.GREEN 30;
  led_not_receiving := Color.scaled Color.YELLOW 50;
  enable_debug_output := true;
  max_speed_value := 1000;
  max_light_value := 100
|}.

(** *** State *)

(** The fields of [ObserverHub] and of its [data_receiver], and the clock
    in milliseconds.  [last_received_time] holds the instant of the last
    [StopWatch.reset()]. *)
Record Hub := mkHub {
  connection_established : bool;
  last_received_time : Z;
  current_speed : Z;
  previous_speed : Z;
  current_light_value : Z;
  has_lights : bool;
  clock : Z
}.

(** What the observer does to its surroundings (debug printing left out). *)
Inductive Event :=
| MotorSetSpeed (port : Port) (speed : Z)
| MotorSetLight (port : Port) (brightness : Z)
| HubLight (color : Color.t)
| Wait (ms : Z).

(** The hub right after [ObserverHub.__init__]. *)
Definition initial_hub (config : ObserverConfiguration) (lights : bool) : Hub := {|
  connection_established := false;
  last_received_time := 0;
  current_speed := 0;
  previous_speed := 0;
  current_light_value := initial_light_value config;
  has_lights := lights;
  clock := 0
|}.

Section Observer.

Variable config : ObserverConfiguration.

(** *** [BLEDataReceiver] *)

(** [isinstance(v, (int, float))]; a [bool] is an [int]. *)
Definition is_number (v : PyVal) : bool :=
  match v with
  | PyBool _ | PyInt _ | PyFloat _ => true
  | _ => false
  end.

(** [int(v)] for a number [v]; [None] when it raises. *)
Definition int_of (v : PyVal) : option Z :=
  match v with
  | PyBool b => Some (if b then 1 else 0)
  | PyInt n => Some n
  | PyFloat x => trunc x
  | _ => None
  end.

(** [speed, light = data] for a tuple or list of length 2; [None] when
    [not isinstance(data, (tuple, list)) or len(data) != 2]. *)
Definition unpack_pair (data : PyVal) : option (PyVal * PyVal) :=
  match data with
  | PyTuple [speed; light] | PyList [speed; light] => Some (speed, light)
  | _ => None
  end.

(** [_validate_data(data)]; every exception inside is caught and gives
    [None]. *)
Definition _validate_data (data : PyVal) : option (Z * Z) :=
  match unpack_pair data with
  | None => None
  | Some (speed, light) =>
      if negb (is_number speed) then None
      else if negb (is_number light) then None
      else
        match int_of speed, int_of light with
        | Some speed_int, Some light_int =>
            Some (Z.max (- max_speed_value config)
                        (Z.min (max_speed_value config) speed_int),
                  Z.max 0 (Z.min (max_light_value config) light_int))
        | _, _ => None
        end
  end.

(** [receive_data()], given what [observe] does in this call. *)
Definition receive_data (observed : Observe) (h : Hub)
    : option (Z * Z) * Hub :=
  match observed with
  | ObserveRaises => (None, h)
  | ObserveReturns PyNone =>
      (None,
       mkHub false (last_received_time h) (current_speed h)
         (previous_speed h) (current_light_value h) (has_lights h) (clock h))
  | ObserveReturns data =>
      (_validate_data data,
       mkHub true (clock h) (current_speed h) (previous_speed h)
         (current_light_value h) (has_lights h) (clock h))
  end.

Definition is_connected (h : Hub) : bool :=
  connection_established h
  && (clock h - last_received_time h <? connection_timeout_ms config).

(** *** [ObserverHub] *)

Definition _update_motor_speeds (speed : Z) (h : Hub) : Hub * list Event :=
  if negb (speed =? previous_speed h) then
    (mkHub (connection_established h) (last_received_time h)
       (current_speed h) speed (current_light_value h) (has_lights h)
       (clock h),
     [MotorSetSpeed PortA speed; MotorSetSpeed PortB speed])
  else (h, []).

Definition _update_lights (light_value : Z) (h : Hub) : Hub * list Event :=
  if negb (light_value =? current_light_value h) && has_lights h then
    (mkHub (connection_established h) (last_received_time h)
       (current_speed h) (previous_speed h) light_value (has_lights h)
       (clock h),
     [MotorSetLight PortA light_value; MotorSetLight PortB light_value])
  else (h, []).

Definition _update_connection_status (connected : bool) : list Event :=
  if connected then [HubLight (led_receiving config)]
  else [HubLight (led_not_receiving config)].

Definition wait (ms : Z) (h : Hub) : Hub * list Event :=
  (mkHub (connection_established h) (last_received_time h) (current_speed h)
     (previous_speed h) (current_light_value h) (has_lights h) (clock h + ms),
   [Wait ms]).

(** One turn of the [while True] loop of [run]. *)
Definition run_iteration (observed : Observe) (h : Hub) : Hub * list Event :=
  let (received_data, h1) := receive_data observed h in
  let connected := is_connected h1 in
  let status := _update_connection_status connected in
  let (h2, acted) :=
    match received_data with
    | Some (speed, light_value) =>
        let (h', motor_events) := _update_motor_speeds speed h1 in
        let (h'', light_events) := _update_lights light_value h' in
        (h'', motor_events ++ light_events)
    | None =>
        if connected then (h1, [])
        else if negb (current_speed h1 =? 0) then _update_motor_speeds 0 h1
        else (h1, [])
    end in
  let (h3, waited) := wait 10 h2 in
  (h3, status ++ acted ++ waited).

(** The loop over the first calls of [observe], one per turn. *)
Fixpoint run_loop (observations : list Observe) (h : Hub)
    : Hub * list Event :=
  match observations with
  | [] => (h, [])
  | observed :: rest =>
      let (h', events) := run_iteration observed h in
      let (h'', later) := run_loop rest h' in
      (h'', events ++ later)
  end.

(** [run()] up to the given calls of [observe]: the first status light,
    then the loop. *)
Definition run (observations : list Observe) (h : Hub) : Hub * list Event :=
  let (h', events) := run_loop observations h in
  (h', _update_connection_status false ++ events).

(** The speeds sent to the motor on a port, in order. *)
Definition speeds_sent (port_a : bool) (events : list Event) : list Z :=
  flat_map (fun e =>
    match e with
    | MotorSetSpeed PortA speed => if port_a then [speed] else []
    | MotorSetSpeed PortB speed => if port_a then [] else [speed]
    | _ => []
    end) events.

End Observer.

End ObserverHub.
(* ================================================================== *)
(** ** The primary hub: the connection check and the main loop *)
(* ================================================================== *)

Module MainHubLoop.
Import PyNum MainHub.

Section Loop.

Variable config : Configuration.
Variable fmt : FloatFormat.

(** [RemoteController.connect()] and [RemoteController.reconnect()], given
    whether [Remote(...)] finds the remote before its timeout (it raises
    OSError when it does not).  Both do the same to the controller. *)
Definition connect (found : bool) : M bool :=
  if found then
    modify (set_remote_controller (mkRemoteController true true)) ;; ret true
  else
    modify (fun w =>
      set_remote_controller
        (mkRemoteController (remote (remote_controller w)) false) w) ;;
    ret false.

Definition reconnect (found : bool) : M bool := connect found.

(** [self.remote_controller.remote.buttons.pressed()] as
    [_handle_remote_connection] calls it, for the exception alone: [true]
    when it returns, [false] when it raises OSError, or AttributeError
    because [remote] is [None]. *)
Definition test_connection : M bool :=
  fun w =>
    if negb (remote (remote_controller w)) then Returns false w
    else
      match polls w with
      | [] => Returns true w
      | Pressed _ :: rest => Returns true (set_polls rest w)
      | PollOSError :: rest => Returns false (set_polls rest w)
      end.

Definition set_connected (flag : bool) : M unit :=
  modify (fun w =>
    set_remote_controller
      (mkRemoteController (remote (remote_controller w)) flag) w).

(** [_handle_remote_connection()], given whether a reconnection would find
    the remote.  It returns the colour it puts on the hub light. *)
Definition _handle_remote_connection (found : bool) : M Color.t :=
  alive <- test_connection ;;
  if alive then
    set_connected true ;;
    ret (led_connected config)
  else
    set_connected false ;;
    when (watchdog_enabled config)
      (modify (set_current_speed 0) ;; _update_motor_speeds config fmt) ;;
    reconnect found ;;
    ret (led_not_connected config).

(** One turn of the [while True] loop of [run]; it returns the colour put
    on the hub light. *)
Definition run_iteration (fuel : nat) (found : bool) : M Color.t :=
  hub_light <- _handle_remote_connection found ;;
  rc <- get remote_controller ;;
  when (connected rc)
    (_handle_profile_switch config fmt fuel ;;
     _handle_speed_control config fmt fuel ;;
     speed <- get current_speed ;;
     when ((speed =? 0) && use_speed_based_leds config
           && blink_profile_when_stopped config)
       (led_color <- _get_led_color_for_speed config fmt speed ;;
        set_led led_color) ;;
     lights <- get has_lights ;;
     when (lights || should_broadcast config) (_handle_light_control config)) ;;
  wait 10 ;;
  ret hub_light.

(** The loop over its first turns, one reconnection outcome per turn (used
    only by a turn that has to reconnect); it returns the colours put on
    the hub light, in order. *)
Fixpoint run_loop (fuel : nat) (founds : list bool) : M (list Color.t) :=
  match founds with
  | [] => ret []
  | found :: rest =>
      hub_light <- run_iteration fuel found ;;
      later <- run_loop fuel rest ;;
      ret (hub_light :: later)
  end.

(** How [run()] goes on after the initial connection. *)
Inductive RunEnd := Shutdown | Running.

(** [run()] up to the given turns of its loop: the hub light colours in
    order, and whether it shut the hub down. *)
Definition run (fuel : nat) (found : bool) (founds : list bool)
    : M (list Color.t * RunEnd) :=
  ok <- connect found ;;
  if negb ok then ret ([Color.scaled Color.RED 100], Shutdown)
  else
    hub_lights <- run_loop fuel founds ;;
    ret (Color.scaled Color.RED 100 :: hub_lights, Running).

End Loop.


(** The colour [_get_stopped_led_color] returns for a blink state: the
    profile indicator (the fast colour when there is none) or the stopped
    colour. *)
Definition blink_color (style : SpeedLEDConfig) (blink : bool) : Color.t :=
  if blink then
    match profile_indicator style with
    | None => fast style
    | Some profile_color => profile_color
    end
  else stopped style.

(** An event of a ramp whose speed, if it carries one, the profile allows. *)
Definition event_speed_legal (profile : MotorProfile) (e : Event) : Prop :=
  match e with
  | MotorSetSpeed _ speed => speed_legal profile speed
  | Broadcast speed _ => speed_legal profile speed
  | _ => True
  end.

(** The profile number after a press of the switch button. *)
Definition switched (profile_number : Z) : Z :=
  if profile_number =? 1 then 2 else 1.

End MainHubLoop.


(* ================================================================== *)
(** ** The devices on the ports: [MotorDevice] of both programs *)
(* ================================================================== *)

Module Devices.
Import PyNum.
Import String.StringSyntax.
#[local] Delimit Scope string_scope with string.

Inductive DeviceType := MOTOR | DC_MOTOR | LIGHT | UNKNOWN | NOT_CONNECTED.

(** The class attribute [DEVICE_NAMES], in the order of the source. *)
Definition DEVICE_NAMES : list (Z * String.string) :=
  [ (1, "Wedo 2.0 DC Motor"%string);
    (2, "Train DC Motor"%string);
    (8, "Light"%string);
    (38, "BOOST Interactive Motor"%string);
    (46, "Technic Large Motor"%string);
    (47, "Technic Extra Large Motor"%string);
    (48, "SPIKE Medium Angular Motor"%string);
    (49, "SPIKE Large Angular Motor"%string);
    (75, "Technic Medium Angular Motor"%string);
    (76, "Technic Large Angular Motor"%string) ].

(** The class attribute [MAX_SPEEDS]. *)
Definition MAX_SPEEDS : list (Z * Z) :=
  [ (38, 1530); (46, 1890); (47, 1980); (48, 1367);
    (49, 1278); (75, 1367); (76, 1278) ].

(** [d.get(key)] on a dict with integer keys; [None] when the key is
    absent. *)
Fixpoint dict_get {V : Type} (d : list (Z * V)) (key : Z) : option V :=
  match d with
  | [] => None
  | (k, v) :: rest => if key =? k then Some v else dict_get rest key
  end.

(** [needle in haystack] on two strings. *)
Definition contains (needle haystack : String.string) : bool :=
  match String.index 0 needle haystack with
  | Some _ => true
  | None => false
  end.

(** The literal [0.9]: the float nearest to 9/10, which the correctly
    rounded quotient of 9 by 10 is. *)
Definition nine_tenths (fmt : FloatFormat) : spec_float :=
  SFdiv (prec fmt) (emax fmt) (of_int fmt 9) (of_int fmt 10).

(** The fields of a [MotorDevice]; [device_object] tells whether the
    attribute holds a device or [None]. *)
Record MotorDevice := mkMotorDevice {
  port : Port;
  direction : Z;
  device_type : DeviceType;
  max_speed : Z;
  device_object : bool
}.

(** [MotorDevice(port, direction)] *)
Definition new_device (p : Port) (dir : Z) : MotorDevice :=
  mkMotorDevice p dir NOT_CONNECTED 1000 false.

(** What [PUPDevice(port)] does: it finds a device with an id, raises
    OSError with ENODEV, or raises another OSError. *)
Inductive Probe :=
| Found (device_id : Z)
| NoDevice
| ProbeOSError.

(** The calls made on the Pybricks device classes. *)
Inductive Command :=
| NewMotor (p : Port)
| NewDCMotor (p : Port)
| NewLight (p : Port)
| Stop (p : Port)
| Limits (p : Port) (speed acceleration : Z)
| Run (p : Port) (speed : spec_float)
| Dc (p : Port) (duty : Z)
| Off (p : Port)
| On (p : Port) (brightness : Z).

Section Device.

Variable fmt : FloatFormat.

(** [_initialize_servo_motor(device_id)]; [None] when [int(...)] raises. *)
Definition _initialize_servo_motor (device_id : Z) (d : MotorDevice)
    : option (MotorDevice * list Command) :=
  let limit :=
    match dict_get MAX_SPEEDS device_id with
    | Some v => v
    | None => 1000
    end in
  match trunc (SFmul (prec fmt) (emax fmt) (of_int fmt limit)
                 (nine_tenths fmt)) with
  | Some safe =>
      Some (mkMotorDevice (port d) (direction d) MOTOR safe true,
            [NewMotor (port d); Stop (port d); Limits (port d) limit 10000])
  | None => None
  end.

Definition _initialize_dc_motor (d : MotorDevice)
    : MotorDevice * list Command :=
  (mkMotorDevice (port d) (direction d) DC_MOTOR (max_speed d) true,
   [NewDCMotor (port d)]).

Definition _initialize_light (d : MotorDevice) : MotorDevice * list Command :=
  (mkMotorDevice (port d) (direction d) LIGHT (max_speed d) true,
   [NewLight (port d)]).

Definition set_device_type (kind : DeviceType) (d : MotorDevice)
    : MotorDevice :=
  mkMotorDevice (port d) (direction d) kind (max_speed d) (device_object d).

(** [detect_and_initialize()], the same in both programs but for what it
    prints: the type it returns, the device afterwards and the calls made;
    [None] when it raises. *)
Definition detect_and_initialize (probe : Probe) (d : MotorDevice)
    : option (DeviceType * MotorDevice * list Command) :=
  match probe with
  | ProbeOSError => None
  | NoDevice => Some (NOT_CONNECTED, set_device_type NOT_CONNECTED d, [])
  | Found device_id =>
      match dict_get DEVICE_NAMES device_id with
      | Some device_name =>
          if contains "Motor"%string device_name
             && negb (contains "DC"%string device_name) then
            match _initialize_servo_motor device_id d with
            | Some (d', commands) => Some (device_type d', d', commands)
            | None => None
            end
          else if contains "DC"%string device_name then
            let (d', commands) := _initialize_dc_motor d in
            Some (device_type d', d', commands)
          else if contains "Light"%string device_name then
            let (d', commands) := _initialize_light d in
            Some (device_type d', d', commands)
          else Some (UNKNOWN, set_device_type UNKNOWN d, [])
      | None => Some (UNKNOWN, set_device_type UNKNOWN d, [])
      end
  end.

(** [MotorDevice.set_speed(speed)] of [main_hub.py]. *)
Definition set_speed (speed : Z) (d : MotorDevice) : list Command :=
  if negb (device_object d) then []
  else
    let actual_speed := speed * direction d in
    match device_type d with
    | MOTOR =>
        if speed =? 0 then [Stop (port d)]
        else
          match truediv fmt (actual_speed * max_speed d) 100 with
          | Some scaled => [Run (port d) scaled]
          | None => []
          end
    | DC_MOTOR =>
        if speed =? 0 then [Stop (port d)]
        else [Dc (port d) actual_speed]
    | _ => []
    end.

(** [MotorDevice.set_light_brightness(brightness)] of [main_hub.py]. *)
Definition set_light_brightness (brightness : Z) (d : MotorDevice)
    : list Command :=
  match device_type d with
  | LIGHT =>
      if device_object d then
        if brightness =? 0 then [Off (port d)]
        else [On (port d) brightness]
      else []
  | _ => []
  end.

(** [MotorDevice.set_speed(speed)] of [observer-hub.py]. *)
Definition observer_set_speed (speed : Z) (d : MotorDevice) : list Command :=
  if negb (device_object d)
     || match device_type d with
        | NOT_CONNECTED | LIGHT => true
        | _ => false
        end
  then []
  else
    let actual_speed := speed * direction d in
    match device_type d with
    | MOTOR =>
        if speed =? 0 then [Stop (port d)]
        else
          match truediv fmt (actual_speed * max_speed d) 100 with
          | Some scaled_speed => [Run (port d) scaled_speed]
          | None => []
          end
    | DC_MOTOR =>
        if speed =? 0 then [Stop (port d)]
        else [Dc (port d) actual_speed]
    | _ => []
    end.

(** [MotorDevice.set_light_brightness(brightness)] of [observer-hub.py]. *)
Definition observer_set_light_brightness (brightness : Z) (d : MotorDevice)
    : list Command :=
  match device_type d with
  | LIGHT =>
      if device_object d then
        if brightness =? 0 then [Off (port d)]
        else [On (port d) (Z.max 0 (Z.min 100 brightness))]
      else []
  | _ => []
  end.

(** [_initialize_devices()] of [main_hub.py], on the two devices of
    [self.motors], given what [PUPDevice] does on each port and the light
    value of the hub: whether there are lights, the devices and the calls
    made; [None] when a detection raises. *)
Definition _initialize_devices (probe_a probe_b : Probe) (light_value : Z)
    (motors : MotorDevice * MotorDevice)
    : option (bool * (MotorDevice * MotorDevice) * list Command) :=
  match detect_and_initialize probe_a (fst motors) with
  | None => None
  | Some (type_a, device_a, commands_a) =>
      let lit_a :=
        match type_a with
        | LIGHT => set_light_brightness light_value device_a
        | _ => []
        end in
      match detect_and_initialize probe_b (snd motors) with
      | None => None
      | Some (type_b, device_b, commands_b) =>
          let lit_b :=
            match type_b with
            | LIGHT => set_light_brightness light_value device_b
            | _ => []
            end in
          Some (match type_a, type_b with
                | LIGHT, _ | _, LIGHT => true
                | _, _ => false
                end,
                (device_a, device_b),
                commands_a ++ lit_a ++ commands_b ++ lit_b)
      end
  end.

Definition device_at (motors : MotorDevice * MotorDevice) (p : Port)
    : MotorDevice :=
  match p with
  | PortA => fst motors
  | PortB => snd motors
  end.

(** The calls on the devices behind an event of the primary hub. *)
Definition main_commands (motors : MotorDevice * MotorDevice)
    (e : MainHub.Event) : list Command :=
  match e with
  | MainHub.MotorSetSpeed p speed => set_speed speed (device_at motors p)
  | MainHub.MotorSetLight p brightness =>
      set_light_brightness brightness (device_at motors p)
  | _ => []
  end.

(** The calls on the devices behind an event of the observer hub. *)
Definition observer_commands (motors : MotorDevice * MotorDevice)
    (e : ObserverHub.Event) : list Command :=
  match e with
  | ObserverHub.MotorSetSpeed p speed =>
      observer_set_speed speed (device_at motors p)
  | ObserverHub.MotorSetLight p brightness =>
      observer_set_light_brightness brightness (device_at motors p)
  | _ => []
  end.

End Device.

(** Device ids by kind: the servo motors (the keys of [MAX_SPEEDS]), the two
    DC motors, the light; any other id is unknown. *)
Definition kind_of_id (device_id : Z) : DeviceType :=
  if existsb (Z.eqb device_id) [38; 46; 47; 48; 49; 75; 76] then MOTOR
  else if existsb (Z.eqb device_id) [1; 2] then DC_MOTOR
  else if device_id =? 8 then LIGHT
  else UNKNOWN.

(** A call that, if it drives a DC motor, gives it a duty inside the
    band. *)
Definition dc_in_band (low high : Z) (c : Command) : Prop :=
  match c with
  | Dc _ duty => low <= Z.abs duty <= high
  | _ => True
  end.

(** A call whose duty or brightness, if it has one, is within bounds. *)
Definition command_in_range (max_duty : Z) (c : Command) : Prop :=
  match c with
  | Dc _ duty => 0 < Z.abs duty <= max_duty
  | On _ brightness => 0 < brightness <= 100
  | _ => True
  end.

End Devices.

(* ================================================================== *)
(** ** Reading the observer's events *)
(* ================================================================== *)

Module ObserverTrace.
Import ObserverHub.

(** The brightnesses sent to the device on port A, in order. *)
Definition lights_sent (events : list Event) : list Z :=
  flat_map (fun e =>
    match e with
    | MotorSetLight PortA brightness => [brightness]
    | _ => []
    end) events.

(** The colours put on the hub light, in order. *)
Definition hub_lights (events : list Event) : list Color.t :=
  flat_map (fun e =>
    match e with
    | HubLight color => [color]
    | _ => []
    end) events.

(** Every value differs from the one before it, the first from
    [previous]. *)
Fixpoint changes_only (previous : Z) (values : list Z) : Prop :=
  match values with
  | [] => True
  | v :: rest => v <> previous /\ changes_only v rest
  end.

(** An event whose speed or brightness, if it carries one, is within the
    ranges of the configuration (read with a maximal speed of either sign,
    and a maximal brightness not below 0). *)
Definition event_in_range (config : ObserverConfiguration) (e : Event)
    : Prop :=
  match e with
  | MotorSetSpeed _ speed => Z.abs speed <= Z.abs (max_speed_value config)
  | MotorSetLight _ brightness =>
      0 <= brightness <= Z.max 0 (max_light_value config)
  | _ => True
  end.

End ObserverTrace.

(* ================================================================== *)
(** ** Facts about comparing a float with an integer *)
(* ================================================================== *)

Module PyNumFacts.
Import PyNum MainHub.







End PyNumFacts.

(* ================================================================== *)
(** ** Facts about the primary hub *)
(* ================================================================== *)

Module MainHubFacts.
Import PyNum MainHub PyNumFacts.

#[local] Arguments _update_motor_speeds : simpl never.
#[local] Arguments _get_led_color_for_speed : simpl never.
#[local] Arguments _get_stopped_led_color : simpl never.
#[local] Arguments accelerate_tick : simpl never.
#[local] Arguments is_button_pressed : simpl never.

(** Unfolding the plumbing of a computation. *)
Ltac run_m :=
  unfold bind, get, modify, ret, when, emit, raise, wait,
    motors_set_speed, motors_set_light_brightness, _broadcast_data, set_led;
  cbn.

(** Case analysis on a test that holds no other test, and the tests met
    so far read as arithmetic. *)
Ltac case_test :=
  match goal with
  | |- context [if ?b then _ else _] =>
      lazymatch b with
      | context [if _ then _ else _] => fail
      | _ => destruct b eqn:?
      end
  end.

Ltac to_arith :=
  rewrite ?andb_true_iff, ?andb_false_iff, ?negb_true_iff, ?negb_false_iff,
    ?Z.ltb_lt, ?Z.ltb_ge, ?Z.leb_le, ?Z.leb_gt, ?Z.eqb_eq, ?Z.eqb_neq in *.

Section Facts.

Variable config : Configuration.
Variable fmt : FloatFormat.

Lemma bind_returns {A B} (m : M A) (k : A -> M B) w a w' :
  m w = Returns a w' -> bind m k w = k a w'.
Proof. intros H. unfold bind. now rewrite H. Qed.

(** *** The LED code *)

Lemma stopped_led_color_returns speed_config w :
  exists color w',
    _get_stopped_led_color speed_config w = Returns color w'
    /\ controls w' = controls w
    /\ previous_speed w' = previous_speed w
    /\ clock w' = clock w
    /\ trace w' = trace w.
Proof.
  unfold _get_stopped_led_color, blink_timer_check, blink_timer_start,
    Timer_check, Timer_start.
  run_m.
  destruct (active (blink_timer w) && _) eqn:E; cbn;
    destruct (active (blink_timer w)) eqn:Ea; cbn;
    repeat match goal with
           | |- context [if ?b then _ else _] => destruct b; cbn
           end;
    eexists; eexists; (split; [reflexivity | cbn; auto]).
Qed.

(** [_get_led_color_for_speed] with its plumbing unfolded. *)
Lemma led_color_unfold speed w :
  _get_led_color_for_speed config fmt speed w =
  let style := _get_current_speed_led_config config w in
  if negb (use_speed_based_leds config) then
    Returns (if current_profile w =? 1 then Color.scaled Color.GREEN 30
             else Color.scaled Color.RED 50) w
  else if Z.abs speed =? 0 then
    if blink_profile_when_stopped config
    then _get_stopped_led_color style w
    else Returns (stopped style) w
  else
    match speed_percentage fmt (Z.abs speed) (_get_current_profile config w)
    with
    | None => Raises ZeroDivisionError w
    | Some pct =>
        Returns (if le_int pct (slow_threshold style) then slow style
                 else if le_int pct (medium_threshold style) then medium style
                 else fast style) w
    end.
Proof.
  unfold _get_led_color_for_speed. cbv zeta.
  destruct (use_speed_based_leds config); cbn [negb]; [|reflexivity].
  unfold bind at 1, get at 1. unfold bind at 1, get at 1.
  destruct (Z.abs speed =? 0).
  - destruct (blink_profile_when_stopped config); reflexivity.
  - destruct (speed_percentage fmt (Z.abs speed) _); [|reflexivity].
    repeat case_test; reflexivity.
Qed.

Lemma led_color_returns speed w :
  speed = 0 \/ max_speed (_get_current_profile config w) <> 0 ->
  exists color w',
    _get_led_color_for_speed config fmt speed w = Returns color w'
    /\ controls w' = controls w
    /\ previous_speed w' = previous_speed w
    /\ clock w' = clock w
    /\ trace w' = trace w.
Proof.
  intros Hsafe.
  unfold _get_led_color_for_speed.
  destruct (use_speed_based_leds config); cbn.
  2: { run_m. eauto 10. }
  destruct (Z.abs speed =? 0) eqn:Habs.
  - destruct (blink_profile_when_stopped config).
    + apply stopped_led_color_returns.
    + run_m. eauto 10.
  - assert (Hmax : max_speed (_get_current_profile config w) <> 0).
    { destruct Hsafe as [-> | H]; [discriminate | exact H]. }
    clear Hsafe.
    unfold speed_percentage, truediv.
    apply Z.eqb_neq in Hmax. rewrite Hmax.
    repeat match goal with
           | |- context [if ?b then _ else _] => destruct b
           end; run_m; eauto 10.
Qed.

(** *** [_update_motor_speeds] *)

Lemma update_motor_speeds_returns w :
  current_speed w = 0 \/ max_speed (_get_current_profile config w) <> 0 ->
  exists w',
    _update_motor_speeds config fmt w = Returns tt w'
    /\ controls w' = controls w
    /\ clock w' = clock w.
Proof.
  intros Hsafe.
  unfold _update_motor_speeds. run_m.
  destruct (current_speed w =? previous_speed w); cbn; [eauto|].
  destruct (connected (remote_controller w)) eqn:Hc; cbn.
  - match goal with
    | |- context [_get_led_color_for_speed _ _ ?s ?w1] =>
        destruct (led_color_returns s w1) as (c & w2 & E & Hk & Hp & Hclk & Ht)
    end.
    { exact Hsafe. }
    rewrite E.
    unfold controls in Hk; cbn in Hk.
    injection Hk as Hcs Hprof Hlv Hhl Hrc Hpolls.
    rewrite Hrc, Hc.
    destruct (remote (remote_controller w)); cbn;
      destruct (should_broadcast config); cbn;
      eexists; (split; [reflexivity|]);
      unfold controls; cbn; rewrite ?Hcs, ?Hprof, ?Hlv, ?Hhl, ?Hrc, ?Hpolls;
      auto.
  - destruct (should_broadcast config); cbn;
      eexists; (split; [reflexivity|]); auto.
Qed.

(** *** One turn of the ramp *)

Lemma accelerate_tick_returns profile direction w :
  max_speed (_get_current_profile config w) <> 0 ->
  exists w',
    accelerate_tick config fmt profile direction w = Returns tt w'
    /\ controls w' =
       controls (set_current_speed
                   (tick_speed profile direction (current_speed w)) w)
    /\ clock w' = clock w + acceleration_delay profile.
Proof.
  intros Hmax.
  unfold accelerate_tick, tick_speed. run_m.
  repeat match goal with
         | |- context [if ?b then _ else _] =>
             lazymatch b with
             | context [_update_motor_speeds] => fail
             | _ => destruct b eqn:?; cbn
             end
         end;
    match goal with
    | |- context [_update_motor_speeds _ _ ?w1] =>
        destruct (update_motor_speeds_returns w1) as (w2 & E & Hk & Hclk);
          [right; exact Hmax | rewrite E; cbn]
    end;
    (eexists; split; [reflexivity|]);
    unfold controls in *; cbn in *;
    injection Hk as Hcs Hprof Hlv Hhl Hrc Hpolls;
    rewrite Hcs, Hprof, Hlv, Hhl, Hrc, Hpolls, Hclk; auto.
Qed.

Lemma accelerate_loop_returns profile direction n : forall w,
  max_speed (_get_current_profile config w) <> 0 ->
  exists w',
    accelerate_loop config fmt profile direction n w = Returns tt w'
    /\ controls w' =
       controls (set_current_speed
                   (loop_speed profile direction n (current_speed w)) w).
Proof.
  induction n as [|n IH]; intros w Hmax; cbn [accelerate_loop loop_speed].
  - exists w. split; [reflexivity|]. now destruct w.
  - destruct (accelerate_tick_returns profile direction w Hmax)
      as (w1 & E & Hk & _).
    rewrite (bind_returns _ _ _ _ _ E).
    unfold controls in Hk; cbn in Hk.
    injection Hk as Hcs Hprof Hlv Hhl Hrc Hpolls.
    unfold bind at 1, get at 1. rewrite Hcs.
    destruct (tick_speed profile direction (current_speed w) =? 0).
    + exists w1. split; [reflexivity|].
      unfold controls; cbn. now rewrite Hcs, Hprof, Hlv, Hhl, Hrc, Hpolls.
    + destruct (IH w1) as (w2 & E2 & Hk2).
      { unfold _get_current_profile in *. now rewrite Hprof. }
      exists w2. split; [exact E2|].
      rewrite Hk2. unfold controls; cbn.
      now rewrite Hcs, Hprof, Hlv, Hhl, Hrc, Hpolls.
Qed.

(** *** Waiting for a button to be released *)

Lemma is_button_pressed_returns action w :
  exists pressed w',
    is_button_pressed action w = Returns pressed w'
    /\ current_speed w' = current_speed w
    /\ current_profile w' = current_profile w
    /\ light_value w' = light_value w
    /\ has_lights w' = has_lights w
    /\ trace w' = trace w
    /\ (List.length (polls w') <= List.length (polls w))%nat
    /\ (pressed = true ->
        (List.length (polls w') < List.length (polls w))%nat).
Proof.
  unfold is_button_pressed.
  destruct (negb (connected (remote_controller w))
            || negb (remote (remote_controller w))).
  - exists false, w. repeat split; auto. discriminate.
  - destruct (polls w) as [|[buttons|] rest] eqn:Hp.
    + exists false, w. rewrite Hp. repeat split; auto. discriminate.
    + eexists _, _. split; [reflexivity|]. cbn. repeat split; auto.
    + eexists _, _. split; [reflexivity|]. cbn. repeat split; auto.
Qed.

Lemma wait_released_returns action fuel : forall w,
  (List.length (polls w) < fuel)%nat ->
  exists w',
    wait_released fuel action w = Returns tt w'
    /\ current_speed w' = current_speed w
    /\ current_profile w' = current_profile w
    /\ (List.length (polls w') <= List.length (polls w))%nat.
Proof.
  induction fuel as [|fuel IH]; intros w Hfuel; [lia|].
  cbn [wait_released].
  destruct (is_button_pressed_returns action w)
    as (pressed & w1 & E & Hcs & Hprof & _ & _ & _ & Hle & Hlt).
  rewrite (bind_returns _ _ _ _ _ E).
  destruct pressed.
  - specialize (Hlt eq_refl).
    destruct (IH (set_trace (trace w1 ++ [Wait 100])
                    (set_clock (clock w1 + 100) w1)))
      as (w2 & E2 & Hcs2 & Hprof2 & Hle2).
    { cbn. lia. }
    exists w2. split.
    + run_m. exact E2.
    + cbn in *. split; [congruence|]. split; [congruence|lia].
  - exists w1. split; [reflexivity|]. auto.
Qed.

(** *** [_accelerate] as a whole *)

Lemma accelerate_returns fuel profile direction w :
  max_speed (_get_current_profile config w) <> 0 ->
  (List.length (polls w) < fuel)%nat ->
  exists w',
    _accelerate config fmt fuel profile direction w = Returns tt w'
    /\ current_speed w' =
       loop_speed profile direction (Z.to_nat (acceleration_step profile))
         (current_speed w)
    /\ current_profile w' = current_profile w
    /\ (List.length (polls w') <= List.length (polls w))%nat.
Proof.
  intros Hmax Hfuel.
  unfold _accelerate.
  destruct (accelerate_loop_returns profile direction
              (Z.to_nat (acceleration_step profile)) w Hmax)
    as (w1 & E & Hk).
  rewrite (bind_returns _ _ _ _ _ E).
  unfold controls in Hk; cbn in Hk.
  injection Hk as Hcs Hprof _ _ _ Hpolls.
  set (button := if 0 <? direction then _ else _).
  assert (Hstage : exists w2,
            when (negb (auto_acceleration config))
              (wait_released fuel button) w1 = Returns tt w2
            /\ current_speed w2 = current_speed w1
            /\ current_profile w2 = current_profile w1
            /\ (List.length (polls w2) <= List.length (polls w1))%nat).
  { destruct (auto_acceleration config); cbn.
    - exists w1. auto.
    - apply wait_released_returns. now rewrite Hpolls. }
  destruct Hstage as (w2 & E2 & Hcs2 & Hprof2 & Hle2).
  rewrite (bind_returns _ _ _ _ _ E2).
  unfold bind, get.
  destruct (current_speed w2 =? 0); cbn.
  - destruct (wait_released_returns button fuel w2)
      as (w3 & E3 & Hcs3 & Hprof3 & Hle3).
    { rewrite Hpolls in Hle2. lia. }
    exists w3. split; [exact E3|].
    rewrite Hpolls in Hle2.
    split; [congruence|]. split; [congruence|lia].
  - exists w2. split; [reflexivity|].
    rewrite Hpolls in Hle2.
    split; [congruence|]. split; [congruence|lia].
Qed.

Lemma repeat_accelerate_returns fuel profile direction calls : forall w,
  max_speed (_get_current_profile config w) <> 0 ->
  (List.length (polls w) < fuel)%nat ->
  exists w',
    repeat_call calls (_accelerate config fmt fuel profile direction) w
      = Returns tt w'
    /\ current_speed w' = ramp_speed profile direction calls (current_speed w)
    /\ current_profile w' = current_profile w.
Proof.
  induction calls as [|calls IH]; intros w Hmax Hfuel;
    cbn [repeat_call ramp_speed].
  - exists w. auto.
  - destruct (accelerate_returns fuel profile direction w Hmax Hfuel)
      as (w1 & E & Hcs & Hprof & Hle).
    rewrite (bind_returns _ _ _ _ _ E).
    destruct (IH w1) as (w2 & E2 & Hcs2 & Hprof2).
    { unfold _get_current_profile in *. now rewrite Hprof. }
    { lia. }
    exists w2. split; [exact E2|]. split; congruence.
Qed.

End Facts.

(** *** The speed on its own *)

Lemma tick_speed_legal profile direction speed :
  0 < min_speed profile <= max_speed profile ->
  speed_legal profile (tick_speed profile direction speed).
Proof.
  intros Hprofile. unfold speed_legal, tick_speed.
  repeat case_test; to_arith; lia.
Qed.

Lemma loop_speed_legal profile direction n : forall speed,
  0 < min_speed profile <= max_speed profile ->
  speed_legal profile speed ->
  speed_legal profile (loop_speed profile direction n speed).
Proof.
  induction n as [|n IH]; intros speed Hprofile Hlegal; cbn [loop_speed].
  - exact Hlegal.
  - pose proof (tick_speed_legal profile direction speed Hprofile) as Htick.
    destruct (tick_speed profile direction speed =? 0); auto.
Qed.

Lemma loop_speed_legal_after_tick profile direction n speed :
  0 < min_speed profile <= max_speed profile ->
  (0 < n)%nat ->
  speed_legal profile (loop_speed profile direction n speed).
Proof.
  intros Hprofile Hn. destruct n as [|n]; [lia|]. cbn [loop_speed].
  pose proof (tick_speed_legal profile direction speed Hprofile) as Htick.
  destruct (tick_speed profile direction speed =? 0); auto.
  now apply loop_speed_legal.
Qed.

Lemma ramp_speed_legal profile direction calls : forall speed,
  0 < min_speed profile <= max_speed profile ->
  speed_legal profile speed ->
  speed_legal profile (ramp_speed profile direction calls speed).
Proof.
  induction calls as [|calls IH]; intros speed Hprofile Hlegal;
    cbn [ramp_speed]; auto using loop_speed_legal.
Qed.

(** Decelerating by one from exactly [min_speed] lands on [- min_speed]:
    the first deadband test takes every magnitude strictly between 0 and
    [min_speed], so the branch that sets the speed to 0 is reached only
    with a speed that is 0 already. *)
Lemma tick_speed_down_from_min_speed profile :
  1 < min_speed profile <= max_speed profile ->
  tick_speed profile (-1) (min_speed profile) = - min_speed profile.
Proof.
  intros Hprofile. unfold tick_speed.
  repeat case_test; to_arith; lia.
Qed.

(** The same on the program: whatever the configuration (that of
    [main_hub.py], that of [main-hub.py]), a train running at [min_speed]
    of the active profile is at [- min_speed] after one turn downwards. *)
Lemma accelerate_tick_down_from_min_speed config fmt profile w :
  1 < min_speed profile <= max_speed profile ->
  _get_current_profile config w = profile ->
  current_speed w = min_speed profile ->
  exists w',
    accelerate_tick config fmt profile (-1) w = Returns tt w'
    /\ current_speed w' = - min_speed profile.
Proof.
  intros Hprofile Hactive Hspeed.
  destruct (accelerate_tick_returns config fmt profile (-1) w)
    as (w' & E & Hk & _); [rewrite Hactive; lia|].
  exists w'. split; [exact E|].
  unfold controls in Hk; cbn in Hk. injection Hk as Hcs _ _ _ _ _.
  rewrite Hcs, Hspeed. now apply tick_speed_down_from_min_speed.
Qed.

Lemma ramp_speed_profile_a_table :
  let profile := mkMotorProfile 20 100 10 100 in
  map (fun calls => ramp_speed profile 1 calls 0)
      [1; 2; 3; 4; 5; 6; 7; 8; 9; 10; 11]%nat
  = [29; 39; 49; 59; 69; 79; 89; 99; 100; 100; 100].
Proof. reflexivity. Qed.

(** *** The ramp *)

(** C2.  For a profile with [0 < min_speed <= max_speed] and a direction
    of +1 or -1, [_accelerate] called with the active profile keeps the
    speed legal: after one turn of its loop, after any number of completed
    turns, and when the call returns (having made at least one turn),
    [|current_speed| <= max_speed] and [|current_speed|] is not strictly
    between 0 and [min_speed]. *)
Theorem accelerate_keeps_speed_legal :
  forall config fmt fuel profile direction w,
    0 < min_speed profile <= max_speed profile ->
    direction = 1 \/ direction = -1 ->
    _get_current_profile config w = profile ->
    (exists w1,
       accelerate_tick config fmt profile direction w = Returns tt w1
       /\ speed_legal profile (current_speed w1))
    /\ (forall n, (0 < n)%nat ->
        exists wn,
          accelerate_loop config fmt profile direction n w = Returns tt wn
          /\ speed_legal profile (current_speed wn))
    /\ (0 < acceleration_step profile ->
        (List.length (polls w) < fuel)%nat ->
        exists w',
          _accelerate config fmt fuel profile direction w = Returns tt w'
          /\ speed_legal profile (current_speed w')).
Proof.
  intros config fmt fuel profile direction w Hprofile _ Hactive.
  assert (Hmax : max_speed (_get_current_profile config w) <> 0)
    by (rewrite Hactive; lia).
  split; [|split].
  - destruct (accelerate_tick_returns config fmt profile direction w Hmax)
      as (w1 & E & Hk & _).
    exists w1. split; [exact E|].
    unfold controls in Hk; cbn in Hk. injection Hk as Hcs _ _ _ _ _.
    rewrite Hcs. now apply tick_speed_legal.
  - intros n Hn.
    destruct (accelerate_loop_returns config fmt profile direction n w Hmax)
      as (wn & E & Hk).
    exists wn. split; [exact E|].
    unfold controls in Hk; cbn in Hk. injection Hk as Hcs _ _ _ _ _.
    rewrite Hcs. now apply loop_speed_legal_after_tick.
  - intros Hstep Hfuel.
    destruct (accelerate_returns config fmt fuel profile direction w Hmax Hfuel)
      as (w' & E & Hcs & _).
    exists w'. split; [exact E|].
    rewrite Hcs. apply loop_speed_legal_after_tick; [exact Hprofile|lia].
Qed.

Lemma accelerate_keeps_speed_legal_witness :
  let config := default_configuration in
  let profile := profile_a config in
  let w := initial_world config false [Pressed [ButtonAction.A_PLUS]] in
  (0 < min_speed profile <= max_speed profile
   /\ _get_current_profile config w = profile)
  /\ (exists w1,
        accelerate_tick config binary64 profile 1 w = Returns tt w1
        /\ speed_legal profile (current_speed w1))
  /\ (exists w3,
        accelerate_loop config binary64 profile 1 3 w = Returns tt w3
        /\ speed_legal profile (current_speed w3))
  /\ (exists w',
        _accelerate config binary64 2 profile 1 w = Returns tt w'
        /\ speed_legal profile (current_speed w')).
Proof.
  cbv zeta.
  destruct (accelerate_keeps_speed_legal default_configuration binary64 2%nat
              (profile_a default_configuration) 1
              (initial_world default_configuration false
                 [Pressed [ButtonAction.A_PLUS]])
              ltac:(cbn; lia) (or_introl eq_refl) eq_refl)
    as (Htick & Hloop & Hcall).
  split; [split; [cbn; lia | reflexivity]|].
  split; [exact Htick|]. split.
  - apply Hloop. lia.
  - apply Hcall; cbn; lia.
Defined.

(** C3, evaluated on the code.  With profile A ([min_speed = 20]) and the
    train running at [+20], one turn of the loop of [_accelerate] in
    direction -1 sets the speed to [-20] and sends [-20] to both motors:
    the speed changes sign without a turn at 0. *)
Theorem deadband_tick_from_min_speed_reverses :
  let config := default_configuration in
  let w := set_previous_speed 20
             (set_current_speed 20 (initial_world config false [])) in
  exists w',
    accelerate_tick config binary64 (profile_a config) (-1) w = Returns tt w'
    /\ current_speed w' = -20
    /\ filter (fun e => match e with MotorSetSpeed _ _ => true | _ => false end)
         (trace w')
       = [MotorSetSpeed PortA (-20); MotorSetSpeed PortB (-20)].
Proof.
  cbv zeta. eexists. split; [vm_compute; reflexivity|]. split; reflexivity.
Qed.

(** C6.  With profile [{min_speed=20, max_speed=100, acceleration_step=10,
    acceleration_delay=100}] active and the speed at 0, ten calls of
    [_accelerate] in direction +1 leave [current_speed] at exactly 100, an
    eleventh leaves it at 100, and after no number of calls is it above
    100. *)
Theorem ramp_reaches_max_after_ten_calls :
  forall config fmt fuel w,
    let profile := mkMotorProfile 20 100 10 100 in
    _get_current_profile config w = profile ->
    current_speed w = 0 ->
    (List.length (polls w) < fuel)%nat ->
    (exists w10,
       repeat_call 10 (_accelerate config fmt fuel profile 1) w
         = Returns tt w10
       /\ current_speed w10 = 100)
    /\ (exists w11,
        repeat_call 11 (_accelerate config fmt fuel profile 1) w
          = Returns tt w11
        /\ current_speed w11 = 100)
    /\ (forall calls, exists w',
        repeat_call calls (_accelerate config fmt fuel profile 1) w
          = Returns tt w'
        /\ current_speed w' <= 100).
Proof.
  intros config fmt fuel w profile Hactive Hzero Hfuel.
  assert (Hmax : max_speed (_get_current_profile config w) <> 0)
    by (rewrite Hactive; discriminate).
  pose proof (fun calls =>
    repeat_accelerate_returns config fmt fuel profile 1 calls w Hmax Hfuel)
    as Hrun.
  split; [|split].
  - destruct (Hrun 10%nat) as (w' & E & Hcs & _).
    exists w'. split; [exact E|]. rewrite Hcs, Hzero. reflexivity.
  - destruct (Hrun 11%nat) as (w' & E & Hcs & _).
    exists w'. split; [exact E|]. rewrite Hcs, Hzero. reflexivity.
  - intros calls. destruct (Hrun calls) as (w' & E & Hcs & _).
    exists w'. split; [exact E|]. rewrite Hcs, Hzero.
    assert (Hlegal : speed_legal profile (ramp_speed profile 1 calls 0)).
    { apply ramp_speed_legal; [cbn; lia|]. unfold speed_legal; cbn. lia. }
    destruct Hlegal as [Hle _]. cbn in Hle. lia.
Qed.

Lemma ramp_reaches_max_after_ten_calls_witness :
  let config := default_configuration in
  let profile := mkMotorProfile 20 100 10 100 in
  let w := initial_world config false [] in
  exists w10,
    repeat_call 10 (_accelerate config binary64 1 profile 1) w
      = Returns tt w10
    /\ current_speed w10 = 100.
Proof.
  cbv zeta.
  apply (ramp_reaches_max_after_ten_calls default_configuration binary64 1%nat
           (initial_world default_configuration false [])).
  - reflexivity.
  - reflexivity.
  - cbn. lia.
Defined.

(** *** LED colours *)



(** At the boundaries of the default profile A the binary64 percentage is
    exact: speed 30 is [slow], 31 is [medium], 60 is [medium], 61 is
    [fast]. *)
Lemma led_color_profile_a_boundaries_binary64 :
  let config := default_configuration in
  let w := initial_world config false [] in
  map (fun speed => _get_led_color_for_speed config binary64 speed w)
      [30; 31; 60; 61; -30; -61]
  = map (fun color => Returns color w)
      [Color.scaled Color.YELLOW 50; Color.scaled Color.ORANGE 50;
       Color.scaled Color.ORANGE 50; Color.scaled Color.RED 70;
       Color.scaled Color.YELLOW 50; Color.scaled Color.RED 70].
Proof. vm_compute. reflexivity. Qed.

(** The percentage is a rounded float: it can come out above the exact
    ratio.  In binary64, [7 / 100 * 100] is above 7; in binary32,
    [30 / 100 * 100] is above 30. *)
Lemma speed_percentage_is_rounded :
  (exists pct,
     speed_percentage binary64 7 (mkMotorProfile 1 100 1 0) = Some pct
     /\ int_lt 7 pct = true)
  /\ (exists pct,
      speed_percentage binary32 30 (mkMotorProfile 20 100 10 100) = Some pct
      /\ int_lt 30 pct = true).
Proof. split; eexists; split; vm_compute; reflexivity. Qed.

(** *** Blinking while stopped *)

(** What [_get_stopped_led_color] returns and leaves, read off the blink
    state alone. *)
Lemma stopped_led_color_by_view style w1 w2 :
  blink_view w1 = blink_view w2 ->
  exists color w1' w2',
    _get_stopped_led_color style w1 = Returns color w1'
    /\ _get_stopped_led_color style w2 = Returns color w2'
    /\ blink_view w1' = blink_view w2'.
Proof.
  unfold blink_view. intros Hview.
  injection Hview as Hblink Hactive Htarget Helapsed.
  unfold _get_stopped_led_color, blink_timer_check, blink_timer_start,
    Timer_check, Timer_start, Timer_time.
  run_m. rewrite Hactive, Htarget, Helapsed.
  destruct (active (blink_timer w2)) eqn:Hactive2; cbn;
    try destruct (target_time (blink_timer w2)
                  <? clock w2 - stopwatch (blink_timer w2)); cbn;
    repeat (progress (rewrite ?Hactive, ?Hactive2, ?Hblink; cbn));
    destruct (led_blink_state w2) eqn:Hblink2; cbn;
    do 3 eexists; (split; [reflexivity|split; [reflexivity|]]); cbn;
    rewrite ?Z.sub_diag, ?Hblink, ?Hblink2, ?Hactive, ?Hactive2, ?Htarget,
      ?Helapsed;
    reflexivity.
Qed.

(** C8.  The LED colour is a function of the speed, the configuration
    (profiles and styles), the active profile and the blink state with
    the time on the blink stopwatch: two worlds that agree on these get
    the same colour (or the same exception), and agree on them afterwards.
    And with no time passing in between, a second call of
    [_get_stopped_led_color] returns the colour of the first and leaves
    the world of the first: it does not toggle again. *)
Theorem led_color_deterministic_blink_idempotent :
  forall config fmt,
    (forall speed w1 w2,
       current_profile w1 = current_profile w2 ->
       blink_view w1 = blink_view w2 ->
       (exists color w1' w2',
          _get_led_color_for_speed config fmt speed w1 = Returns color w1'
          /\ _get_led_color_for_speed config fmt speed w2 = Returns color w2'
          /\ blink_view w1' = blink_view w2')
       \/ (exists e,
            _get_led_color_for_speed config fmt speed w1 = Raises e w1
            /\ _get_led_color_for_speed config fmt speed w2 = Raises e w2))
    /\ (forall style w,
         0 <= blink_interval_ms style ->
         exists color w',
           _get_stopped_led_color style w = Returns color w'
           /\ _get_stopped_led_color style w' = Returns color w').
Proof.
  intros config fmt. split.
  - intros speed w1 w2 Hprofile Hview.
    rewrite !led_color_unfold. cbv zeta.
    unfold _get_current_speed_led_config, _get_current_profile.
    rewrite Hprofile.
    destruct (use_speed_based_leds config); cbn [negb].
    + destruct (Z.abs speed =? 0).
      * destruct (blink_profile_when_stopped config).
        -- left. now apply stopped_led_color_by_view.
        -- left. eauto 10.
      * destruct (speed_percentage fmt (Z.abs speed) _) as [pct|].
        -- left. eauto 10.
        -- right. exists ZeroDivisionError. split; reflexivity.
    + left. eauto 10.
  - intros style w Hinterval.
    assert (Hfresh : (blink_interval_ms style <? clock w - clock w) = false)
      by (apply Z.ltb_ge; lia).
    unfold _get_stopped_led_color, blink_timer_check, blink_timer_start,
      Timer_check, Timer_start, Timer_time.
    run_m.
    destruct (active (blink_timer w)) eqn:Hactive; cbn;
      try destruct (target_time (blink_timer w)
                    <? clock w - stopwatch (blink_timer w)) eqn:Helapsed;
      cbn; rewrite ?Hactive; cbn;
      destruct (led_blink_state w) eqn:Hblink; cbn;
      (do 2 eexists; split; [reflexivity|]); cbn;
      repeat (progress (rewrite ?Hactive, ?Helapsed, ?Hfresh, ?Hblink; cbn));
      reflexivity.
Qed.

Lemma led_color_deterministic_blink_idempotent_witness :
  let style := led_speed_profile_a default_configuration in
  let w := set_clock 700 (initial_world default_configuration false []) in
  0 <= blink_interval_ms style
  /\ exists color w',
       _get_stopped_led_color style w = Returns color w'
       /\ _get_stopped_led_color style w' = Returns color w'.
Proof.
  cbv zeta. split; [cbn; lia|].
  apply (proj2 (led_color_deterministic_blink_idempotent
                  default_configuration binary64)).
  cbn. lia.
Defined.

(** A blink interval below 0 would make every call toggle. *)
Lemma stopped_led_color_negative_interval_toggles :
  let style := mkSpeedLEDConfig (Color.scaled Color.WHITE 20)
                 (Color.scaled Color.YELLOW 50) (Color.scaled Color.ORANGE 50)
                 (Color.scaled Color.RED 70) None 30 60 (-1) in
  let w := initial_world default_configuration false [] in
  exists w1 w2,
    _get_stopped_led_color style w = Returns (stopped style) w1
    /\ _get_stopped_led_color style w1 = Returns (fast style) w2.
Proof. cbv zeta. do 2 eexists. split; vm_compute; reflexivity. Qed.

(** *** Light control *)











(** *** [_update_motor_speeds] without a change *)

(** C10.  When [current_speed] equals [previous_speed],
    [_update_motor_speeds] returns with the world as it was: nothing is
    added to the trace (no [set_speed] on a motor, no LED update on the
    remote, no broadcast) and no field changes.  So setting the speed to 0
    when it is 0 already, and updating, sends nothing. *)
Theorem update_motor_speeds_without_change :
  forall config fmt w,
    current_speed w = previous_speed w ->
    _update_motor_speeds config fmt w = Returns tt w
    /\ (current_speed w = 0 ->
        (modify (set_current_speed 0) ;; _update_motor_speeds config fmt) w
          = Returns tt w).
Proof.
  intros config fmt w Hsame.
  assert (Hupdate : _update_motor_speeds config fmt w = Returns tt w).
  { unfold _update_motor_speeds. run_m.
    apply Z.eqb_eq in Hsame. now rewrite Hsame. }
  split; [exact Hupdate|].
  intros Hzero. unfold bind, modify.
  replace (set_current_speed 0 w) with w; [exact Hupdate|].
  destruct w; cbn in *. now subst.
Qed.

Lemma update_motor_speeds_without_change_witness :
  let w := initial_world default_configuration true [] in
  current_speed w = previous_speed w
  /\ _update_motor_speeds default_configuration binary64 w = Returns tt w.
Proof.
  cbv zeta. split; [reflexivity|].
  apply (proj1 (update_motor_speeds_without_change default_configuration
                  binary64 (initial_world default_configuration true [])
                  eq_refl)).
Defined.

End MainHubFacts.

(* ================================================================== *)
(** ** Facts about the observer hub *)
(* ================================================================== *)

Module ObserverFacts.
Import PyNum ObserverHub.
Import String.StringSyntax.
#[local] Delimit Scope string_scope with string.

#[local] Arguments Z.eqb : simpl never.
#[local] Arguments Z.ltb : simpl never.

(** Case analysis on the condition of a test, or on a validated sample. *)
Ltac case_cond :=
  match goal with
  | |- context [if ?b then _ else _] =>
      lazymatch b with
      | context [if _ then _ else _] => fail
      | context [match _ with _ => _ end] => fail
      | _ => destruct b eqn:?
      end
  | |- context [_validate_data ?config ?data] =>
      destruct (_validate_data config data) as [[? ?]|] eqn:?
  end.

(** *** The fail-safe stop *)

(** Nothing in the loop assigns [current_speed]. *)
Lemma run_iteration_current_speed config observed h :
  current_speed (fst (run_iteration config observed h)) = current_speed h.
Proof.
  unfold run_iteration, receive_data, _update_motor_speeds, _update_lights,
    wait.
  destruct observed as [data|]; [destruct data|]; cbn;
    repeat (case_cond; cbn); reflexivity.
Qed.

Lemma run_loop_current_speed config observations : forall h,
  current_speed (fst (run_loop config observations h)) = current_speed h.
Proof.
  induction observations as [|observed rest IH]; intros h; cbn; auto.
  pose proof (run_iteration_current_speed config observed h) as Hstep.
  destruct (run_iteration config observed h) as [h' events].
  specialize (IH h').
  destruct (run_loop config rest h') as [h'' later].
  cbn in *. congruence.
Qed.

(** A turn without data while [current_speed] is 0: the link is marked
    lost, the status light is set, and nothing goes to the motors. *)
Lemma run_iteration_without_data config h :
  current_speed h = 0 ->
  run_iteration config (ObserveReturns PyNone) h =
  (mkHub false (last_received_time h) (current_speed h) (previous_speed h)
     (current_light_value h) (has_lights h) (clock h + 10),
   [HubLight (led_not_receiving config); Wait 10]).
Proof.
  intros Hzero. unfold run_iteration, receive_data, is_connected, wait.
  cbn. rewrite Hzero. reflexivity.
Qed.

Lemma run_loop_without_data config n : forall h,
  current_speed h = 0 ->
  let result := run_loop config (repeat (ObserveReturns PyNone) n) h in
  speeds_sent true (snd result) = []
  /\ speeds_sent false (snd result) = []
  /\ previous_speed (fst result) = previous_speed h
  /\ ((0 < n)%nat -> is_connected config (fst result) = false).
Proof.
  induction n as [|n IH]; intros h Hzero; cbn [repeat run_loop].
  - cbn. repeat split; auto. lia.
  - rewrite (run_iteration_without_data config h Hzero).
    match goal with
    | |- context [run_loop config _ ?h1] =>
        specialize (IH h1 Hzero); destruct (run_loop config _ h1)
          as [h' later] eqn:Hloop
    end.
    cbn in *. destruct IH as (Ha & Hb & Hprev & Hlink).
    repeat split; auto.
    intros _. destruct n as [|n]; [|apply Hlink; lia].
    cbn in Hloop. injection Hloop as <- _. reflexivity.
Qed.

(** One sample of two integers, then silence, under any configuration:
    the motors get the clamped speed of the sample (if it is not 0) and
    nothing after it. *)
Lemma run_one_sample_then_silence config lights speed light outage :
  let commanded :=
    Z.max (- max_speed_value config) (Z.min (max_speed_value config) speed) in
  let result :=
    run config
      (ObserveReturns (PyTuple [PyInt speed; PyInt light])
       :: repeat (ObserveReturns PyNone) (S outage))
      (initial_hub config lights) in
  speeds_sent true (snd result) = (if commanded =? 0 then [] else [commanded])
  /\ speeds_sent false (snd result)
     = (if commanded =? 0 then [] else [commanded])
  /\ previous_speed (fst result) = commanded
  /\ is_connected config (fst result) = false.
Proof.
  cbv zeta. unfold run. cbn [run_loop].
  set (commanded := Z.max _ (Z.min _ speed)).
  set (first := run_iteration _ _ _).
  assert (Hfirst : exists h1 events,
            first = (h1, events)
            /\ current_speed h1 = 0 /\ previous_speed h1 = commanded
            /\ speeds_sent true events
               = (if commanded =? 0 then [] else [commanded])
            /\ speeds_sent false events
               = (if commanded =? 0 then [] else [commanded])).
  { subst first.
    unfold run_iteration, receive_data, is_connected, _update_motor_speeds,
      _update_lights, _update_connection_status, wait, speeds_sent.
    cbn. fold commanded.
    destruct (commanded =? 0) eqn:Hzero; cbn;
      repeat (case_cond; cbn);
      do 2 eexists; (split; [reflexivity|]); cbn; repeat split; auto.
    all: apply Z.eqb_eq in Hzero; congruence. }
  destruct Hfirst as (h1 & events & -> & Hzero & Hprev & Ha & Hb).
  pose proof (run_loop_without_data config (S outage) h1 Hzero) as Hloop.
  destruct (run_loop config _ h1) as [h' later].
  cbn in Hloop. destruct Hloop as (Hla & Hlb & Hlprev & Hlink).
  cbn [fst snd]. unfold speeds_sent in *.
  rewrite !flat_map_app. cbn [flat_map _update_connection_status app].
  rewrite Ha, Hb, Hla, Hlb, !app_nil_r.
  repeat split; try congruence. apply Hlink. lia.
Qed.

(** C1, evaluated on the code.  The observer receives the sample
    [(50, 0)] once and then, for any number of turns (at least one),
    nothing.  The motors are sent 50 and nothing else: no turn sends 0,
    though the link is lost and the motors still run at 50.  The test of
    the fail-safe reads [current_speed], which stays 0 from
    [__init__] on. *)
Theorem failsafe_never_stops_motors :
  forall lights outage,
    let config := default_configuration in
    let sample := ObserveReturns (PyTuple [PyInt 50; PyInt 0]) in
    let result :=
      run config (sample :: repeat (ObserveReturns PyNone) (S outage))
        (initial_hub config lights) in
    speeds_sent true (snd result) = [50]
    /\ speeds_sent false (snd result) = [50]
    /\ previous_speed (fst result) = 50
    /\ current_speed (fst result) = 0
    /\ is_connected config (fst result) = false.
Proof.
  intros lights outage. cbv zeta.
  unfold run. cbn [run_loop].
  set (first := run_iteration _ _ _).
  assert (Hfirst : exists h1 events,
            first = (h1, events)
            /\ current_speed h1 = 0 /\ previous_speed h1 = 50
            /\ speeds_sent true events = [50]
            /\ speeds_sent false events = [50]).
  { destruct lights; do 2 eexists; (split; [reflexivity|]); cbn; auto. }
  destruct Hfirst as (h1 & events & -> & Hzero & Hprev & Ha & Hb).
  pose proof (run_loop_without_data default_configuration (S outage) h1 Hzero)
    as Hloop.
  pose proof (run_loop_current_speed default_configuration
                (repeat (ObserveReturns PyNone) (S outage)) h1) as Hcs.
  destruct (run_loop default_configuration _ h1) as [h' later].
  cbn in Hloop, Hcs. destruct Hloop as (Hla & Hlb & Hlprev & Hlink).
  cbn [fst snd]. unfold speeds_sent in *.
  rewrite !flat_map_app. cbn [flat_map _update_connection_status app].
  rewrite Ha, Hb, Hla, Hlb.
  repeat split; try congruence. apply Hlink. lia.
Qed.

(** What the fail-safe branch does where its test does pass: from a
    state with [current_speed] other than 0 and the motors running, a turn
    without data sends 0 to both motors, and the next such turn sends
    nothing.  No run from [initial_hub] reaches such a state
    ([run_loop_current_speed]). *)
Lemma failsafe_branch_stops_once config h :
  current_speed h <> 0 ->
  previous_speed h <> 0 ->
  let first := run_iteration config (ObserveReturns PyNone) h in
  let second := run_iteration config (ObserveReturns PyNone) (fst first) in
  speeds_sent true (snd first) = [0]
  /\ speeds_sent false (snd first) = [0]
  /\ speeds_sent true (snd second) = []
  /\ speeds_sent false (snd second) = [].
Proof.
  intros Hcs Hprev. cbv zeta.
  unfold run_iteration, receive_data, is_connected, _update_motor_speeds,
    wait.
  cbn.
  apply Z.eqb_neq in Hcs. rewrite Hcs. cbn.
  assert (Hp : (0 =? previous_speed h) = false) by (apply Z.eqb_neq; lia).
  rewrite Hp. cbn. rewrite Hcs. cbn. auto.
Qed.

(** *** The link state *)

(** C4 as stated fails.  A malformed sample (three elements) is rejected
    by the validator and yet establishes the link; and ten milliseconds
    later, far from the timeout of 1000, one receive without data clears
    it. *)
Lemma link_established_counterexample :
  let config := default_configuration in
  let h0 := initial_hub config false in
  let malformed := PyTuple [PyInt 1; PyInt 2; PyInt 3] in
  let step1 := receive_data config (ObserveReturns malformed) h0 in
  let h1 := snd step1 in
  let h2 := fst (wait 10 h1) in
  let step2 := receive_data config (ObserveReturns PyNone) h2 in
  let h3 := snd step2 in
  (is_connected config h0 = false
   /\ fst step1 = None
   /\ is_connected config h1 = true)
  /\ (is_connected config h2 = true
      /\ clock h3 - last_received_time h3 = 10
      /\ 10 < connection_timeout_ms config
      /\ is_connected config h3 = false).
Proof. cbv zeta. repeat split; reflexivity. Qed.

(** C4, amended.  After a call of [receive_data], [is_connected] is: false
    when [observe] returned [None], whatever the time since the last
    sample; true when it returned anything else, well-formed or not
    (given a timeout above 0: the stopwatch was just reset); unchanged
    when [observe] raised.  Between calls, while time passes, it holds as
    long as the link was established and the time since the last sample
    is below the timeout. *)
Theorem link_established_transitions :
  forall config observed h,
    is_connected config (snd (receive_data config observed h)) =
      match observed with
      | ObserveReturns PyNone => false
      | ObserveReturns _ => 0 <? connection_timeout_ms config
      | ObserveRaises => is_connected config h
      end
    /\ forall ms,
         is_connected config (fst (wait ms h)) =
           connection_established h
           && (clock h + ms - last_received_time h
               <? connection_timeout_ms config).
Proof.
  intros config observed h. split.
  - unfold receive_data, is_connected.
    destruct observed as [data|]; [destruct data|]; cbn;
      rewrite ?Z.sub_diag; reflexivity.
  - intros ms. reflexivity.
Qed.

(** *** The validator *)

(** C5 as stated fails.  A pair whose speed is a NaN or an infinite float
    passes both [isinstance] tests, [int(speed)] raises, and the pair is
    rejected: an infinite speed is not clamped to [max_speed_value]. *)
Lemma validate_data_counterexample :
  let config := default_configuration in
  (is_number (PyFloat S754_nan) = true
   /\ is_number (PyInt 0) = true
   /\ _validate_data config (PyTuple [PyFloat S754_nan; PyInt 0]) = None)
  /\ (is_number (PyFloat (S754_infinity false)) = true
      /\ _validate_data config
           (PyTuple [PyFloat (S754_infinity false); PyInt 0]) = None).
Proof. cbv zeta. repeat split; reflexivity. Qed.

(** C5, amended.  [_validate_data] returns [None] when the input is not a
    tuple or list of two elements, when one of the two is not a number,
    and when one of the two is a NaN or an infinite float.  On every other
    input, two numbers that [int] converts (integers, booleans, finite
    floats, truncated toward zero), it returns the pair of the converted
    values, the speed clamped to [-max_speed_value, max_speed_value] and
    the light to [0, max_light_value].  A speed of 5000 with
    [max_speed_value = 1000] comes back as 1000. *)
Theorem validate_data_contract :
  forall config data,
    (unpack_pair data = None -> _validate_data config data = None)
    /\ (forall speed light,
         unpack_pair data = Some (speed, light) ->
         (is_number speed = false \/ is_number light = false ->
          _validate_data config data = None)
         /\ (is_number speed = true -> is_number light = true ->
             int_of speed = None \/ int_of light = None ->
             _validate_data config data = None)
         /\ (forall speed_int light_int,
               is_number speed = true -> is_number light = true ->
               int_of speed = Some speed_int ->
               int_of light = Some light_int ->
               exists clamped_speed clamped_light,
                 _validate_data config data
                   = Some (clamped_speed, clamped_light)
                 /\ clamped_speed =
                      Z.max (- max_speed_value config)
                        (Z.min (max_speed_value config) speed_int)
                 /\ clamped_light =
                      Z.max 0 (Z.min (max_light_value config) light_int)
                 /\ (0 <= max_speed_value config ->
                     - max_speed_value config <= clamped_speed
                       <= max_speed_value config)
                 /\ (0 <= max_light_value config ->
                     0 <= clamped_light <= max_light_value config)))
    /\ (max_speed_value config = 1000 -> 0 <= max_light_value config ->
        _validate_data config (PyTuple [PyInt 5000; PyInt 0])
          = Some (1000, 0)).
Proof.
  intros config data. split; [|split].
  - intros Hshape. unfold _validate_data. now rewrite Hshape.
  - intros speed light Hshape. unfold _validate_data. rewrite Hshape.
    split; [|split].
    + intros [-> | Hlight]; [reflexivity|].
      rewrite Hlight. now destruct (is_number speed).
    + intros -> -> [-> | Hlight]; cbn; [reflexivity|].
      rewrite Hlight. now destruct (int_of speed).
    + intros speed_int light_int -> -> -> ->. cbn.
      do 2 eexists. split; [reflexivity|].
      repeat split; lia.
  - intros Hmax Hlight. unfold _validate_data. cbn. rewrite Hmax.
    f_equal. f_equal; lia.
Qed.

Lemma validate_data_contract_witness :
  let config := default_configuration in
  let data := PyList [PyFloat (S754_finite true 7 (-1)); PyInt 250] in
  unpack_pair data = Some (PyFloat (S754_finite true 7 (-1)), PyInt 250)
  /\ exists clamped_speed clamped_light,
       _validate_data config data = Some (clamped_speed, clamped_light)
       /\ clamped_speed = Z.max (-1000) (Z.min 1000 (-3))
       /\ clamped_light = Z.max 0 (Z.min 100 250).
Proof.
  cbv zeta. split; [reflexivity|].
  destruct (proj2 (proj2 (proj1 (proj2
              (validate_data_contract default_configuration
                 (PyList [PyFloat (S754_finite true 7 (-1)); PyInt 250])))
              (PyFloat (S754_finite true 7 (-1))) (PyInt 250) eq_refl))
              (-3) 250 eq_refl eq_refl eq_refl eq_refl)
    as (clamped_speed & clamped_light & Hvalid & Hspeed & Hlight & _).
  exists clamped_speed, clamped_light. auto.
Defined.

(** The three inputs the specification names. *)
Lemma validate_data_examples :
  let config := default_configuration in
  _validate_data config (PyTuple [PyInt 1; PyInt 2; PyInt 3]) = None
  /\ _validate_data config (PyTuple [PyStr "fast"%string; PyInt 0]) = None
  /\ _validate_data config (PyTuple [PyInt 5000; PyInt 0]) = Some (1000, 0).
Proof. cbv zeta. repeat split; reflexivity. Qed.

End ObserverFacts.

(* ================================================================== *)
(** ** More facts about the primary hub *)
(* ================================================================== *)

Module MainHubMore.
Import PyNum MainHub MainHubLoop PyNumFacts MainHubFacts.

#[local] Arguments _update_motor_speeds : simpl never.
#[local] Arguments _get_led_color_for_speed : simpl never.
#[local] Arguments _get_stopped_led_color : simpl never.
#[local] Arguments accelerate_tick : simpl never.
#[local] Arguments is_button_pressed : simpl never.

(** *** The blink timer *)

(** [_get_stopped_led_color] in one step: whether the timer fired, the
    blink state and the timer it leaves, the colour it returns. *)
Lemma stopped_led_color_unfold style w :
  _get_stopped_led_color style w =
  let timer := blink_timer w in
  let fired :=
    active timer && (target_time timer <? clock w - stopwatch timer) in
  let blink :=
    if fired then negb (led_blink_state w) else led_blink_state w in
  Returns (blink_color style blink)
    (set_blink_timer
       (if fired || negb (active timer)
        then mkTimer true (blink_interval_ms style) (clock w)
        else timer)
       (set_led_blink_state blink w)).
Proof.
  unfold _get_stopped_led_color, blink_timer_check, blink_timer_start,
    Timer_check, Timer_start, Timer_time, blink_color.
  run_m.
  destruct (active (blink_timer w)) eqn:Hactive; cbn;
    try destruct (target_time (blink_timer w)
                  <? clock w - stopwatch (blink_timer w)); cbn;
    rewrite ?Hactive; cbn;
    unfold set_blink_timer, set_led_blink_state; cbn;
    rewrite ?Hactive; cbn;
    destruct (led_blink_state w); reflexivity.
Qed.

(** X1.  The blink runs on its own timer: a first call of
    [_get_stopped_led_color] with the timer idle starts it and shows the
    colour of the current blink state; a call no later than
    [blink_interval_ms] after that changes nothing; and a later call
    toggles exactly when more than [blink_interval_ms] has passed since
    the start, however many calls came in between. *)
Theorem blink_toggles_after_interval :
  forall style w ms1 ms2,
    active (blink_timer w) = false ->
    ms1 <= blink_interval_ms style ->
    exists w',
      (c0 <- _get_stopped_led_color style ;;
       wait ms1 ;;
       c1 <- _get_stopped_led_color style ;;
       wait ms2 ;;
       c2 <- _get_stopped_led_color style ;;
       ret (c0, c1, c2)) w
      = Returns (blink_color style (led_blink_state w),
                 blink_color style (led_blink_state w),
                 blink_color style
                   (if blink_interval_ms style <? ms1 + ms2
                    then negb (led_blink_state w)
                    else led_blink_state w)) w'.
Proof.
  intros style w ms1 ms2 Hidle Hms1.
  unfold bind. rewrite stopped_led_color_unfold. cbn.
  rewrite stopped_led_color_unfold. cbn.
  rewrite stopped_led_color_unfold. cbn.
  rewrite Hidle. cbn.
  replace (clock w + ms1 - clock w) with ms1 by lia.
  assert (H1 : (blink_interval_ms style <? ms1) = false)
    by (apply Z.ltb_ge; lia).
  rewrite H1. cbn.
  replace (clock w + ms1 + ms2 - clock w) with (ms1 + ms2) by lia.
  destruct (blink_interval_ms style <? ms1 + ms2); cbn;
    eexists; reflexivity.
Qed.

Lemma blink_toggles_after_interval_witness :
  let style := led_speed_profile_a default_configuration in
  let w := initial_world default_configuration false [] in
  (active (blink_timer w) = false /\ 200 <= blink_interval_ms style)
  /\ exists w',
       (c0 <- _get_stopped_led_color style ;;
        wait 200 ;;
        c1 <- _get_stopped_led_color style ;;
        wait 301 ;;
        c2 <- _get_stopped_led_color style ;;
        ret (c0, c1, c2)) w
       = Returns (Color.scaled Color.WHITE 20, Color.scaled Color.WHITE 20,
                  Color.scaled Color.GREEN 60) w'.
Proof.
  cbv zeta. split; [split; [reflexivity | cbn; lia]|].
  apply (blink_toggles_after_interval
           (led_speed_profile_a default_configuration)
           (initial_world default_configuration false []) 200 301 eq_refl).
  cbn. lia.
Defined.

(** *** A remote that is gone *)

Lemma is_button_pressed_disconnected action w :
  connected (remote_controller w) = false ->
  is_button_pressed action w = Returns false w.
Proof. intros H. unfold is_button_pressed. now rewrite H. Qed.

Lemma is_button_pressed_oserror action w rest :
  remote_controller w = mkRemoteController true true ->
  polls w = PollOSError :: rest ->
  is_button_pressed action w
  = Returns false
      (set_polls rest
         (set_remote_controller (mkRemoteController true false) w)).
Proof.
  intros Hrc Hpolls. unfold is_button_pressed. now rewrite Hrc, Hpolls.
Qed.

(** X2.  While the controller is marked disconnected, the three button
    handlers do nothing at all: they return with the world as it was, the
    remote is not polled and its pending answers stay where they are. *)
Theorem handlers_idle_while_disconnected :
  forall config fmt fuel w,
    connected (remote_controller w) = false ->
    _handle_speed_control config fmt fuel w = Returns tt w
    /\ _handle_light_control config w = Returns tt w
    /\ _handle_profile_switch config fmt fuel w = Returns tt w.
Proof.
  intros config fmt fuel w Hgone.
  pose proof (fun action => is_button_pressed_disconnected action w Hgone)
    as Hpoll.
  unfold _handle_speed_control, _handle_light_control,
    _handle_profile_switch, bind, get.
  repeat (rewrite Hpoll; cbn). auto.
Qed.

Lemma handlers_idle_while_disconnected_witness :
  let config := default_configuration in
  let held := Pressed [ButtonAction.A_PLUS; ButtonAction.CENTER] in
  let w := set_remote_controller (mkRemoteController true false)
             (initial_world config false [held; held; held]) in
  connected (remote_controller w) = false
  /\ _handle_speed_control config binary64 0 w = Returns tt w
  /\ _handle_light_control config w = Returns tt w
  /\ _handle_profile_switch config binary64 0 w = Returns tt w.
Proof.
  cbv zeta. split; [reflexivity|].
  apply (handlers_idle_while_disconnected default_configuration binary64 0%nat).
  reflexivity.
Defined.

(** X3.  An OSError from the remote does not escape a handler: the first
    poll that raises marks the controller disconnected, and the handler
    returns having changed nothing else; the answers still pending are
    left for later. *)
Theorem handlers_survive_oserror :
  forall config fmt fuel w rest,
    remote_controller w = mkRemoteController true true ->
    polls w = PollOSError :: rest ->
    let w' := set_polls rest
                (set_remote_controller (mkRemoteController true false) w) in
    _handle_speed_control config fmt fuel w = Returns tt w'
    /\ _handle_light_control config w = Returns tt w'
    /\ _handle_profile_switch config fmt fuel w = Returns tt w'.
Proof.
  intros config fmt fuel w rest Hrc Hpolls w'.
  pose proof (fun action => is_button_pressed_oserror action w rest Hrc Hpolls)
    as Hfirst.
  pose proof (fun action =>
    is_button_pressed_disconnected action w' eq_refl) as Hpoll.
  fold w' in Hfirst.
  unfold _handle_speed_control, _handle_light_control,
    _handle_profile_switch, bind, get.
  rewrite !Hfirst; cbn.
  repeat (rewrite Hpoll; cbn). auto.
Qed.

Lemma handlers_survive_oserror_witness :
  let config := default_configuration in
  let held := Pressed [ButtonAction.A_PLUS] in
  let w := initial_world config false [PollOSError; held] in
  let w' := set_polls [held]
              (set_remote_controller (mkRemoteController true false) w) in
  (remote_controller w = mkRemoteController true true
   /\ polls w = [PollOSError; held])
  /\ _handle_speed_control config binary64 1 w = Returns tt w'
  /\ _handle_light_control config w = Returns tt w'
  /\ _handle_profile_switch config binary64 1 w = Returns tt w'.
Proof.
  cbv zeta. split; [split; reflexivity|].
  apply (handlers_survive_oserror default_configuration binary64 1%nat
           (initial_world default_configuration false
              [PollOSError; Pressed [ButtonAction.A_PLUS]])
           [Pressed [ButtonAction.A_PLUS]]); reflexivity.
Defined.

(** *** Pushing a speed change *)

Lemma update_motor_speeds_on_change config fmt w :
  current_speed w <> previous_speed w ->
  current_speed w = 0 \/ max_speed (_get_current_profile config w) <> 0 ->
  exists w' led,
    _update_motor_speeds config fmt w = Returns tt w'
    /\ controls w' = controls w
    /\ previous_speed w' = current_speed w
    /\ clock w' = clock w
    /\ trace w' =
       trace w
       ++ [MotorSetSpeed PortA (current_speed w);
           MotorSetSpeed PortB (current_speed w)]
       ++ led
       ++ (if should_broadcast config
           then [Broadcast (current_speed w) (light_value w)] else [])
    /\ (if connected (remote_controller w) && remote (remote_controller w)
        then exists color, led = [RemoteLed color]
        else led = []).
Proof.
  intros Hchange Hsafe.
  unfold _update_motor_speeds. run_m.
  apply Z.eqb_neq in Hchange. rewrite Hchange. cbn.
  destruct (connected (remote_controller w)) eqn:Hc; cbn.
  - match goal with
    | |- context [_get_led_color_for_speed _ _ ?s ?w1] =>
        destruct (led_color_returns config fmt s w1)
          as (c & w2 & E & Hk & Hp & Hclk & Ht)
    end.
    { exact Hsafe. }
    rewrite E.
    unfold controls in Hk; cbn in Hk, Hp, Hclk, Ht.
    injection Hk as Hcs Hprof Hlv Hhl Hrc Hpolls.
    rewrite Hrc, Hc.
    destruct (remote (remote_controller w)); cbn;
      destruct (should_broadcast config); cbn;
      eexists;
      [exists [RemoteLed c] | exists [RemoteLed c] | exists nil | exists nil];
      (split; [reflexivity|]);
      unfold controls; cbn;
      rewrite ?Hcs, ?Hprof, ?Hlv, ?Hhl, ?Hrc, ?Hpolls, ?Hp, ?Hclk, ?Ht;
      rewrite <- ?app_assoc; cbn; repeat split; eauto.
  - destruct (should_broadcast config); cbn;
      eexists; exists nil; (split; [reflexivity|]);
      unfold controls; cbn; rewrite <- ?app_assoc; auto 10.
Qed.

Lemma update_motor_speeds_same config fmt w :
  current_speed w = previous_speed w ->
  _update_motor_speeds config fmt w = Returns tt w.
Proof.
  intros Hsame. unfold _update_motor_speeds. run_m.
  apply Z.eqb_eq in Hsame. now rewrite Hsame.
Qed.

(** X4.  A change of speed is pushed exactly once: [_update_motor_speeds]
    sends the new speed to the motor on each port, then updates the
    remote's LED if the remote is connected, then broadcasts
    [(current_speed, light_value)] once if broadcasting is on, and records
    the speed as [previous_speed]; calling it again right away does
    nothing. *)
Theorem speed_change_pushed_once :
  forall config fmt w,
    current_speed w <> previous_speed w ->
    current_speed w = 0 \/ max_speed (_get_current_profile config w) <> 0 ->
    exists w' led,
      _update_motor_speeds config fmt w = Returns tt w'
      /\ previous_speed w' = current_speed w
      /\ current_speed w' = current_speed w
      /\ trace w' =
         trace w
         ++ [MotorSetSpeed PortA (current_speed w);
             MotorSetSpeed PortB (current_speed w)]
         ++ led
         ++ (if should_broadcast config
             then [Broadcast (current_speed w) (light_value w)] else [])
      /\ (if connected (remote_controller w) && remote (remote_controller w)
          then exists color, led = [RemoteLed color]
          else led = [])
      /\ _update_motor_speeds config fmt w' = Returns tt w'.
Proof.
  intros config fmt w Hchange Hsafe.
  destruct (update_motor_speeds_on_change config fmt w Hchange Hsafe)
    as (w' & led & E & Hk & Hprev & _ & Htrace & Hled).
  unfold controls in Hk. injection Hk as Hcs _ _ _ _ _.
  exists w', led. repeat split; auto.
  apply update_motor_speeds_same. congruence.
Qed.

Lemma speed_change_pushed_once_witness :
  let config := default_configuration in
  let w := set_light_value 40
             (set_current_speed 25 (initial_world config false [])) in
  (current_speed w <> previous_speed w
   /\ max_speed (_get_current_profile config w) <> 0)
  /\ exists w',
       _update_motor_speeds config binary64 w = Returns tt w'
       /\ previous_speed w' = 25
       /\ trace w' =
          [MotorSetSpeed PortA 25; MotorSetSpeed PortB 25;
           RemoteLed (Color.scaled Color.YELLOW 50); Broadcast 25 40]
       /\ _update_motor_speeds config binary64 w' = Returns tt w'.
Proof.
  cbv zeta. split; [split; cbn; lia|].
  destruct (speed_change_pushed_once default_configuration binary64
              (set_light_value 40
                 (set_current_speed 25
                    (initial_world default_configuration false [])))
              ltac:(cbn; lia) ltac:(right; cbn; lia))
    as (w' & led & E & Hprev & _ & _ & _ & Hagain).
  exists w'. split; [exact E|]. split; [exact Hprev|]. split; [|exact Hagain].
  vm_compute in E. injection E as <-. reflexivity.
Defined.

(** *** What a ramp sends *)

Lemma update_motor_speeds_events config fmt profile w :
  current_speed w = 0 \/ max_speed (_get_current_profile config w) <> 0 ->
  speed_legal profile (current_speed w) ->
  exists w' events,
    _update_motor_speeds config fmt w = Returns tt w'
    /\ controls w' = controls w
    /\ clock w' = clock w
    /\ trace w' = trace w ++ events
    /\ Forall (event_speed_legal profile) events.
Proof.
  intros Hsafe Hlegal.
  destruct (Z.eq_dec (current_speed w) (previous_speed w)) as [Hsame|Hchange].
  - exists w, nil. rewrite (update_motor_speeds_same config fmt w Hsame).
    rewrite app_nil_r. auto.
  - destruct (update_motor_speeds_on_change config fmt w Hchange Hsafe)
      as (w' & led & E & Hk & _ & Hclk & Htrace & Hled).
    exists w'. eexists. split; [exact E|]. split; [exact Hk|].
    split; [exact Hclk|]. split; [exact Htrace|].
    repeat (apply Forall_cons; [exact Hlegal|]).
    apply Forall_app. split.
    + destruct (connected (remote_controller w) && remote (remote_controller w)).
      * destruct Hled as [color ->]. repeat constructor.
      * subst led. constructor.
    + destruct (should_broadcast config);
        [apply Forall_cons; [exact Hlegal|]|]; constructor.
Qed.

(** One turn of the ramp: the new speed, then the update and the delay. *)
Lemma accelerate_tick_unfold config fmt profile direction w :
  accelerate_tick config fmt profile direction w =
  (_update_motor_speeds config fmt ;; wait (acceleration_delay profile))
    (set_current_speed (tick_speed profile direction (current_speed w)) w).
Proof.
  unfold accelerate_tick, tick_speed. run_m.
  repeat (case_test; cbn); reflexivity.
Qed.

Lemma accelerate_tick_events config fmt profile direction w :
  max_speed (_get_current_profile config w) <> 0 ->
  0 < min_speed profile <= max_speed profile ->
  exists w' events,
    accelerate_tick config fmt profile direction w = Returns tt w'
    /\ controls w' =
       controls (set_current_speed
                   (tick_speed profile direction (current_speed w)) w)
    /\ clock w' = clock w + acceleration_delay profile
    /\ trace w' = trace w ++ events
    /\ Forall (event_speed_legal profile) events.
Proof.
  intros Hmax Hprofile.
  rewrite accelerate_tick_unfold.
  set (w1 := set_current_speed _ w).
  destruct (update_motor_speeds_events config fmt profile w1)
    as (w2 & events & E & Hk & Hclk & Htrace & Hall).
  { right. exact Hmax. }
  { apply tick_speed_legal. exact Hprofile. }
  rewrite (bind_returns _ _ _ _ _ E).
  exists (set_trace (trace w2 ++ [Wait (acceleration_delay profile)])
            (set_clock (clock w2 + acceleration_delay profile) w2)),
         (events ++ [Wait (acceleration_delay profile)]).
  split; [reflexivity|].
  unfold controls in *; cbn in *.
  injection Hk as Hcs Hprof Hlv Hhl Hrc Hpolls.
  rewrite Hcs, Hprof, Hlv, Hhl, Hrc, Hpolls, Hclk, Htrace, <- app_assoc.
  repeat split; auto.
  apply Forall_app; split; auto. repeat constructor.
Qed.

Lemma accelerate_loop_events config fmt profile direction n : forall w,
  max_speed (_get_current_profile config w) <> 0 ->
  0 < min_speed profile <= max_speed profile ->
  exists w' events,
    accelerate_loop config fmt profile direction n w = Returns tt w'
    /\ controls w' =
       controls (set_current_speed
                   (loop_speed profile direction n (current_speed w)) w)
    /\ trace w' = trace w ++ events
    /\ Forall (event_speed_legal profile) events.
Proof.
  induction n as [|n IH]; intros w Hmax Hprofile;
    cbn [accelerate_loop loop_speed].
  - exists w, nil. rewrite app_nil_r. repeat split; auto.
  - destruct (accelerate_tick_events config fmt profile direction w
                Hmax Hprofile) as (w1 & events & E & Hk & _ & Htrace & Hall).
    rewrite (bind_returns _ _ _ _ _ E).
    unfold controls in Hk; cbn in Hk.
    injection Hk as Hcs Hprof Hlv Hhl Hrc Hpolls.
    unfold bind at 1, get at 1. rewrite Hcs.
    destruct (tick_speed profile direction (current_speed w) =? 0).
    + exists w1, events. split; [reflexivity|].
      unfold controls; cbn.
      rewrite Hcs, Hprof, Hlv, Hhl, Hrc, Hpolls. auto.
    + destruct (IH w1) as (w2 & later & E2 & Hk2 & Htrace2 & Hall2).
      { unfold _get_current_profile in *. now rewrite Hprof. }
      { exact Hprofile. }
      exists w2, (events ++ later). split; [exact E2|].
      rewrite Hk2, Htrace2, Htrace, <- app_assoc.
      unfold controls; cbn.
      rewrite Hcs, Hprof, Hlv, Hhl, Hrc, Hpolls.
      repeat split; auto. apply Forall_app; auto.
Qed.

(** A poll changes nothing but the controller and its pending answers. *)
Lemma is_button_pressed_fields action w :
  exists pressed w',
    is_button_pressed action w = Returns pressed w'
    /\ current_speed w' = current_speed w
    /\ previous_speed w' = previous_speed w
    /\ current_profile w' = current_profile w
    /\ light_value w' = light_value w
    /\ has_lights w' = has_lights w
    /\ led_blink_state w' = led_blink_state w
    /\ blink_timer w' = blink_timer w
    /\ clock w' = clock w
    /\ trace w' = trace w
    /\ remote (remote_controller w') = remote (remote_controller w)
    /\ (List.length (polls w') <= List.length (polls w))%nat
    /\ (pressed = true ->
        (List.length (polls w') < List.length (polls w))%nat
        /\ remote_controller w' = remote_controller w).
Proof.
  unfold is_button_pressed.
  destruct (negb (connected (remote_controller w))
            || negb (remote (remote_controller w))).
  - exists false, w. repeat split; auto; discriminate.
  - destruct (polls w) as [|[buttons|] rest] eqn:Hp.
    + exists false, w. rewrite Hp. repeat split; auto; discriminate.
    + eexists _, _. split; [reflexivity|]. cbn. repeat split; auto.
    + eexists _, _. split; [reflexivity|]. cbn.
      repeat split; auto; discriminate.
Qed.

(** The release wait, read field by field. *)
Lemma wait_released_fields action fuel : forall w,
  (List.length (polls w) < fuel)%nat ->
  exists w' waits,
    wait_released fuel action w = Returns tt w'
    /\ current_speed w' = current_speed w
    /\ previous_speed w' = previous_speed w
    /\ current_profile w' = current_profile w
    /\ light_value w' = light_value w
    /\ has_lights w' = has_lights w
    /\ led_blink_state w' = led_blink_state w
    /\ blink_timer w' = blink_timer w
    /\ trace w' = trace w ++ repeat (Wait 100) waits
    /\ clock w' = clock w + 100 * Z.of_nat waits
    /\ remote (remote_controller w') = remote (remote_controller w)
    /\ (List.length (polls w') <= List.length (polls w))%nat.
Proof.
  induction fuel as [|fuel IH]; intros w Hfuel; [lia|].
  cbn [wait_released].
  destruct (is_button_pressed_fields action w)
    as (pressed & w1 & E & Hcs & Hprev & Hprof & Hlv & Hhl & Hbs & Hbt
        & Hclk & Htr & Hremote & Hle & Hlt).
  rewrite (bind_returns _ _ _ _ _ E).
  destruct pressed.
  - destruct (Hlt eq_refl) as [Hshorter _].
    destruct (IH (set_trace (trace w1 ++ [Wait 100])
                    (set_clock (clock w1 + 100) w1)))
      as (w2 & waits & E2 & Hcs2 & Hprev2 & Hprof2 & Hlv2 & Hhl2 & Hbs2
          & Hbt2 & Htr2 & Hclk2 & Hremote2 & Hle2).
    { cbn. lia. }
    exists w2, (S waits). split; [run_m; exact E2|].
    cbn [current_speed previous_speed current_profile light_value
         has_lights led_blink_state blink_timer trace clock
         remote_controller polls set_trace set_clock]
      in Hcs2, Hprev2, Hprof2, Hlv2, Hhl2, Hbs2, Hbt2, Htr2, Hclk2,
         Hremote2, Hle2.
    rewrite Hcs2, Hprev2, Hprof2, Hlv2, Hhl2, Hbs2, Hbt2, Htr2, Hclk2,
      Hremote2, Hcs, Hprev, Hprof, Hlv, Hhl, Hbs, Hbt, Htr, Hclk, Hremote.
    rewrite <- app_assoc. cbn [app repeat].
    repeat split; auto; lia.
  - exists w1, O. split; [reflexivity|].
    cbn [repeat]. rewrite app_nil_r.
    repeat split; auto; lia.
Qed.

Lemma Forall_waits_legal profile waits :
  Forall (event_speed_legal profile) (repeat (Wait 100) waits).
Proof. induction waits; cbn; constructor; cbn; auto. Qed.

Lemma accelerate_events config fmt fuel profile direction w :
  max_speed (_get_current_profile config w) <> 0 ->
  0 < min_speed profile <= max_speed profile ->
  (List.length (polls w) < fuel)%nat ->
  exists w' events,
    _accelerate config fmt fuel profile direction w = Returns tt w'
    /\ current_speed w' =
       loop_speed profile direction (Z.to_nat (acceleration_step profile))
         (current_speed w)
    /\ trace w' = trace w ++ events
    /\ Forall (event_speed_legal profile) events.
Proof.
  intros Hmax Hprofile Hfuel.
  unfold _accelerate.
  destruct (accelerate_loop_events config fmt profile direction
              (Z.to_nat (acceleration_step profile)) w Hmax Hprofile)
    as (w1 & events & E & Hk & Htrace & Hall).
  rewrite (bind_returns _ _ _ _ _ E).
  unfold controls in Hk; cbn in Hk.
  injection Hk as Hcs Hprof _ _ _ Hpolls.
  set (button := if 0 <? direction then _ else _).
  assert (Hstage : exists w2 waits,
            when (negb (auto_acceleration config))
              (wait_released fuel button) w1 = Returns tt w2
            /\ current_speed w2 = current_speed w1
            /\ trace w2 = trace w1 ++ repeat (Wait 100) waits
            /\ (List.length (polls w2) <= List.length (polls w1))%nat).
  { destruct (auto_acceleration config); cbn.
    - exists w1, O. cbn. rewrite app_nil_r. auto.
    - destruct (wait_released_fields button fuel w1)
        as (w2 & waits & E2 & Hcs2 & _ & _ & _ & _ & _ & _ & Htr2 & _ & _
            & Hle2).
      { now rewrite Hpolls. }
      exists w2, waits. auto. }
  destruct Hstage as (w2 & waits & E2 & Hcs2 & Htr2 & Hle2).
  rewrite (bind_returns _ _ _ _ _ E2).
  unfold bind, get.
  destruct (current_speed w2 =? 0); cbn.
  - destruct (wait_released_fields button fuel w2)
      as (w3 & waits3 & E3 & Hcs3 & _ & _ & _ & _ & _ & _ & Htr3 & _).
    { rewrite Hpolls in Hle2. lia. }
    exists w3, (events ++ repeat (Wait 100) waits ++ repeat (Wait 100) waits3).
    split; [exact E3|]. split; [congruence|].
    split.
    + rewrite Htr3, Htr2, Htrace, <- !app_assoc. reflexivity.
    + repeat (apply Forall_app; split); auto using Forall_waits_legal.
  - exists w2, (events ++ repeat (Wait 100) waits).
    split; [reflexivity|]. split; [congruence|].
    split.
    + rewrite Htr2, Htrace, <- !app_assoc. reflexivity.
    + apply Forall_app; split; auto using Forall_waits_legal.
Qed.

(** X5.  During a ramp the motors are never sent a speed the profile
    forbids: for a profile with [0 < min_speed <= max_speed], every speed
    that [_accelerate] (called with the active profile) sends to a motor
    or broadcasts is at most [max_speed] in magnitude and not strictly
    between 0 and [min_speed], from whatever speed the ramp starts. *)
Theorem accelerate_sends_only_legal_speeds :
  forall config fmt fuel profile direction w,
    0 < min_speed profile <= max_speed profile ->
    _get_current_profile config w = profile ->
    (List.length (polls w) < fuel)%nat ->
    exists w' events,
      _accelerate config fmt fuel profile direction w = Returns tt w'
      /\ trace w' = trace w ++ events
      /\ Forall (event_speed_legal profile) events.
Proof.
  intros config fmt fuel profile direction w Hprofile Hactive Hfuel.
  destruct (accelerate_events config fmt fuel profile direction w)
    as (w' & events & E & _ & Htrace & Hall); auto.
  - rewrite Hactive. lia.
  - eauto.
Qed.

Lemma accelerate_sends_only_legal_speeds_witness :
  let config := default_configuration in
  let profile := profile_a config in
  let w := set_previous_speed 500
             (set_current_speed 500 (initial_world config false [])) in
  (0 < min_speed profile <= max_speed profile
   /\ _get_current_profile config w = profile
   /\ (List.length (polls w) < 1)%nat)
  /\ exists w' events,
       _accelerate config binary64 1 profile 1 w = Returns tt w'
       /\ trace w' = trace w ++ events
       /\ Forall (event_speed_legal profile) events.
Proof.
  cbv zeta. split; [cbn; repeat split; lia|].
  apply (accelerate_sends_only_legal_speeds default_configuration binary64
           1%nat (profile_a default_configuration) 1
           (set_previous_speed 500
              (set_current_speed 500
                 (initial_world default_configuration false [])))).
  - cbn. lia.
  - reflexivity.
  - cbn. lia.
Defined.

(** *** A ramp does not stop *)

Lemma tick_speed_nonzero profile direction speed :
  2 <= min_speed profile <= max_speed profile ->
  direction = 1 \/ direction = -1 ->
  speed_legal profile speed ->
  tick_speed profile direction speed <> 0.
Proof.
  intros Hprofile Hdir [Hmax Hdead]. unfold tick_speed.
  destruct Hdir as [-> | ->]; cbn [Z.ltb Z.compare];
    repeat case_test; to_arith; lia.
Qed.

Lemma accelerate_loop_full_length config fmt profile direction n : forall w,
  max_speed (_get_current_profile config w) <> 0 ->
  2 <= min_speed profile <= max_speed profile ->
  direction = 1 \/ direction = -1 ->
  speed_legal profile (current_speed w) ->
  exists w',
    accelerate_loop config fmt profile direction n w = Returns tt w'
    /\ controls w' =
       controls (set_current_speed
                   (loop_speed profile direction n (current_speed w)) w)
    /\ clock w' = clock w + Z.of_nat n * acceleration_delay profile
    /\ speed_legal profile (current_speed w')
    /\ ((0 < n)%nat -> current_speed w' <> 0).
Proof.
  induction n as [|n IH]; intros w Hmax Hprofile Hdir Hlegal;
    cbn [accelerate_loop loop_speed].
  - exists w. split; [reflexivity|]. split; [reflexivity|].
    split; [lia|]. split; [exact Hlegal|lia].
  - assert (Hprofile' : 0 < min_speed profile <= max_speed profile) by lia.
    destruct (accelerate_tick_events config fmt profile direction w
                Hmax Hprofile') as (w1 & events & E & Hk & Hclk & _ & _).
    rewrite (bind_returns _ _ _ _ _ E).
    unfold controls in Hk; cbn in Hk.
    injection Hk as Hcs Hprof Hlv Hhl Hrc Hpolls.
    unfold bind at 1, get at 1. rewrite Hcs.
    pose proof (tick_speed_nonzero profile direction (current_speed w)
                  Hprofile Hdir Hlegal) as Hnz.
    pose proof (tick_speed_legal profile direction (current_speed w)
                  Hprofile') as Hlegal1.
    apply Z.eqb_neq in Hnz. rewrite Hnz.
    destruct (IH w1) as (w2 & E2 & Hk2 & Hclk2 & Hlegal2 & Hnz2).
    { unfold _get_current_profile in *. now rewrite Hprof. }
    { exact Hprofile. }
    { exact Hdir. }
    { now rewrite Hcs. }
    exists w2. split; [exact E2|].
    split.
    { rewrite Hk2. unfold controls; cbn.
      now rewrite Hcs, Hprof, Hlv, Hhl, Hrc, Hpolls. }
    split; [rewrite Hclk2, Hclk, Nat2Z.inj_succ; ring|].
    split; [exact Hlegal2|].
    intros _. destruct n as [|n]; [|apply Hnz2; lia].
    cbn in E2. injection E2 as <-. rewrite Hcs. now apply Z.eqb_neq.
Qed.

(** X6.  With [min_speed >= 2], a ramp never brings the train to a stop:
    from any speed the profile allows, [_accelerate] in direction +1 or -1
    makes every one of its [acceleration_step] turns (the [break] at
    speed 0 is never taken) and returns with a speed other than 0.  With
    automatic acceleration on it therefore takes exactly
    [acceleration_step * acceleration_delay] milliseconds and does not
    poll the remote. *)
Theorem ramp_never_reaches_zero :
  forall config fmt fuel profile direction w,
    2 <= min_speed profile <= max_speed profile ->
    direction = 1 \/ direction = -1 ->
    _get_current_profile config w = profile ->
    speed_legal profile (current_speed w) ->
    0 < acceleration_step profile ->
    (List.length (polls w) < fuel)%nat ->
    exists w',
      _accelerate config fmt fuel profile direction w = Returns tt w'
      /\ current_speed w' <> 0
      /\ (auto_acceleration config = true ->
          clock w' =
            clock w + acceleration_step profile * acceleration_delay profile
          /\ polls w' = polls w).
Proof.
  intros config fmt fuel profile direction w Hprofile Hdir Hactive Hlegal
    Hstep Hfuel.
  assert (Hmax : max_speed (_get_current_profile config w) <> 0)
    by (rewrite Hactive; lia).
  unfold _accelerate.
  destruct (accelerate_loop_full_length config fmt profile direction
              (Z.to_nat (acceleration_step profile)) w Hmax Hprofile Hdir
              Hlegal) as (w1 & E & Hk & Hclk & _ & Hnz).
  rewrite (bind_returns _ _ _ _ _ E).
  specialize (Hnz ltac:(lia)).
  unfold controls in Hk; cbn in Hk.
  injection Hk as _ _ _ _ _ Hpolls.
  rewrite Z2Nat.id in Hclk by lia.
  set (button := if 0 <? direction then _ else _).
  destruct (auto_acceleration config) eqn:Hauto; cbn.
  - unfold bind, get, ret. cbn.
    apply Z.eqb_neq in Hnz. rewrite Hnz. cbn.
    exists w1. split; [reflexivity|]. split; [now apply Z.eqb_neq|].
    intros _. auto.
  - destruct (wait_released_fields button fuel w1)
      as (w2 & waits & E2 & Hcs2 & _).
    { now rewrite Hpolls. }
    rewrite (bind_returns _ _ _ _ _ E2).
    unfold bind, get. rewrite Hcs2.
    apply Z.eqb_neq in Hnz. rewrite Hnz. cbn.
    exists w2. split; [reflexivity|].
    split; [rewrite Hcs2; now apply Z.eqb_neq|discriminate].
Qed.

Lemma ramp_never_reaches_zero_witness :
  let config := default_configuration in
  let profile := profile_a config in
  let w := set_previous_speed 20
             (set_current_speed 20 (initial_world config false [])) in
  (2 <= min_speed profile <= max_speed profile
   /\ speed_legal profile (current_speed w)
   /\ 0 < acceleration_step profile)
  /\ exists w',
       _accelerate config binary64 1 profile (-1) w = Returns tt w'
       /\ current_speed w' <> 0
       /\ clock w' = clock w + 1000.
Proof.
  cbv zeta.
  split; [cbn; unfold speed_legal; cbn; repeat split; lia|].
  destruct (ramp_never_reaches_zero default_configuration binary64 1%nat
              (profile_a default_configuration) (-1)
              (set_previous_speed 20
                 (set_current_speed 20
                    (initial_world default_configuration false [])))
              ltac:(cbn; lia) (or_intror eq_refl) eq_refl
              ltac:(unfold speed_legal; cbn; lia) ltac:(cbn; lia)
              ltac:(cbn; lia))
    as (w' & E & Hnz & Hauto).
  exists w'. split; [exact E|]. split; [exact Hnz|].
  exact (proj1 (Hauto eq_refl)).
Defined.

(** *** The speed a ramp arrives at *)

Lemma tick_speed_mirror profile direction speed :
  0 <= max_speed profile ->
  direction <> 0 ->
  tick_speed profile (- direction) (- speed)
  = - tick_speed profile direction speed.
Proof.
  intros Hmax Hdir. unfold tick_speed.
  repeat case_test; to_arith; lia.
Qed.

Lemma loop_speed_mirror profile direction n : forall speed,
  0 <= max_speed profile ->
  direction <> 0 ->
  loop_speed profile (- direction) n (- speed)
  = - loop_speed profile direction n speed.
Proof.
  induction n as [|n IH]; intros speed Hmax Hdir; cbn [loop_speed]; auto.
  rewrite (tick_speed_mirror profile direction speed Hmax Hdir).
  destruct (tick_speed profile direction speed =? 0) eqn:Hzero.
  - apply Z.eqb_eq in Hzero. rewrite Hzero. reflexivity.
  - apply Z.eqb_neq in Hzero.
    assert (Hneg : (- tick_speed profile direction speed =? 0) = false)
      by (apply Z.eqb_neq; lia).
    rewrite Hneg. now apply IH.
Qed.

Lemma tick_speed_up profile speed :
  0 < min_speed profile <= max_speed profile ->
  speed = 0 \/ min_speed profile <= speed <= max_speed profile ->
  tick_speed profile 1 speed
  = Z.min (max_speed profile) (Z.max speed (min_speed profile - 1) + 1).
Proof.
  intros Hprofile Hstart. unfold tick_speed. cbn [Z.ltb Z.compare].
  repeat case_test; to_arith; lia.
Qed.

Lemma loop_speed_up profile n : forall speed,
  0 < min_speed profile <= max_speed profile ->
  speed = 0 \/ min_speed profile <= speed <= max_speed profile ->
  (0 < n)%nat ->
  loop_speed profile 1 n speed
  = Z.min (max_speed profile)
      (Z.max speed (min_speed profile - 1) + Z.of_nat n).
Proof.
  induction n as [|n IH]; intros speed Hprofile Hstart Hn; [lia|].
  cbn [loop_speed]. rewrite (tick_speed_up profile speed Hprofile Hstart).
  set (speed' := Z.min _ _).
  assert (Hspeed' : min_speed profile <= speed' <= max_speed profile)
    by (subst speed'; lia).
  assert (Hnz : (speed' =? 0) = false) by (apply Z.eqb_neq; lia).
  rewrite Hnz.
  destruct n as [|n].
  - cbn [loop_speed]. subst speed'. lia.
  - rewrite IH; auto; lia.
Qed.

(** X7.  Where a ramp in the direction of travel arrives: from rest, or
    from a speed of magnitude at least [min_speed] in the direction of
    the ramp, one call of [_accelerate] leaves the train at
    [min (max_speed, max (|speed|, min_speed - 1) + acceleration_step)] in
    that direction: it jumps from 0 to [min_speed] in its first turn, adds
    1 in each further turn and stays at [max_speed] once there. *)
Theorem ramp_in_direction_of_travel :
  forall config fmt fuel profile direction w,
    0 < min_speed profile <= max_speed profile ->
    direction = 1 \/ direction = -1 ->
    _get_current_profile config w = profile ->
    current_speed w = 0
      \/ min_speed profile <= direction * current_speed w
                           <= max_speed profile ->
    0 < acceleration_step profile ->
    (List.length (polls w) < fuel)%nat ->
    exists w',
      _accelerate config fmt fuel profile direction w = Returns tt w'
      /\ current_speed w' =
         direction
         * Z.min (max_speed profile)
             (Z.max (direction * current_speed w) (min_speed profile - 1)
              + acceleration_step profile).
Proof.
  intros config fmt fuel profile direction w Hprofile Hdir Hactive Hstart
    Hstep Hfuel.
  destruct (accelerate_returns config fmt fuel profile direction w)
    as (w' & E & Hcs & _); auto.
  { rewrite Hactive. lia. }
  exists w'. split; [exact E|]. rewrite Hcs.
  destruct Hdir as [-> | ->].
  - rewrite loop_speed_up; auto; lia.
  - replace (current_speed w) with (- (- current_speed w)) at 1 by lia.
    change (-1) with (- (1)) at 1.
    rewrite loop_speed_mirror by lia.
    rewrite loop_speed_up; auto; lia.
Qed.

Lemma ramp_in_direction_of_travel_witness :
  let config := default_configuration in
  let profile := profile_b config in
  let w := set_current_profile 2
             (set_previous_speed (-497)
                (set_current_speed (-497) (initial_world config false []))) in
  (0 < min_speed profile <= max_speed profile
   /\ min_speed profile <= -1 * current_speed w <= max_speed profile
   /\ 0 < acceleration_step profile)
  /\ exists w',
       _accelerate config binary64 1 profile (-1) w = Returns tt w'
       /\ current_speed w' = -500.
Proof.
  cbv zeta. split; [cbn; lia|].
  apply (ramp_in_direction_of_travel default_configuration binary64 1%nat
           (profile_b default_configuration) (-1)
           (set_current_profile 2
              (set_previous_speed (-497)
                 (set_current_speed (-497)
                    (initial_world default_configuration false []))))).
  - cbn. lia.
  - right. reflexivity.
  - reflexivity.
  - right. cbn. lia.
  - cbn. lia.
  - cbn. lia.
Defined.

(** *** The stop button *)

(** [self.current_speed = 0; self._update_motor_speeds(); wait(100)] *)
Lemma stop_sequence config fmt w :
  exists w' events,
    (modify (set_current_speed 0) ;; _update_motor_speeds config fmt ;;
     wait 100) w = Returns tt w'
    /\ current_speed w' = 0
    /\ previous_speed w' = 0
    /\ current_profile w' = current_profile w
    /\ light_value w' = light_value w
    /\ polls w' = polls w
    /\ trace w' = trace w ++ events ++ [Wait 100]
    /\ (previous_speed w = 0 -> events = [])
    /\ (previous_speed w <> 0 ->
        exists rest,
          events = MotorSetSpeed PortA 0 :: MotorSetSpeed PortB 0 :: rest).
Proof.
  unfold bind at 1, modify at 1.
  set (w0 := set_current_speed 0 w).
  destruct (Z.eq_dec (previous_speed w) 0) as [Hstopped|Hmoving].
  - rewrite (bind_returns _ _ _ _ _
               (update_motor_speeds_same config fmt w0 (eq_sym Hstopped))).
    eexists. exists nil. split; [reflexivity|]. cbn.
    repeat split; auto. contradiction.
  - destruct (update_motor_speeds_on_change config fmt w0)
      as (w1 & led & E & Hk & Hprev & Hclk & Htrace & _).
    { cbn. congruence. }
    { left. reflexivity. }
    rewrite (bind_returns _ _ _ _ _ E).
    unfold controls in Hk; cbn in Hk, Hprev, Htrace.
    injection Hk as Hcs Hprof Hlv _ _ Hpolls.
    eexists.
    exists (MotorSetSpeed PortA 0 :: MotorSetSpeed PortB 0
            :: led ++ (if should_broadcast config
                       then [Broadcast 0 (light_value w)] else [])).
    split; [reflexivity|]. cbn.
    rewrite Hcs, Hprev, Hprof, Hlv, Hpolls, Htrace.
    repeat split; auto.
    + rewrite <- app_assoc. reflexivity.
    + contradiction.
    + intros _. eexists. reflexivity.
Qed.

(** X8.  Stop wins over accelerate: while the stop button is held,
    whatever else is held with it, [_handle_speed_control] never ramps.
    It sets the speed to 0, sends 0 to both motors if they were running
    (and nothing to them if they were not), and waits 100 ms. *)
Theorem stop_button_wins :
  forall config fmt fuel w pressed_buttons rest,
    remote_controller w = mkRemoteController true true ->
    polls w = repeat (Pressed pressed_buttons) 5 ++ rest ->
    existsb (ButtonAction.eqb (button_mapping config STOP)) pressed_buttons
      = true ->
    exists w' events,
      _handle_speed_control config fmt fuel w = Returns tt w'
      /\ current_speed w' = 0
      /\ previous_speed w' = 0
      /\ trace w' = trace w ++ events ++ [Wait 100]
      /\ (previous_speed w = 0 -> events = [])
      /\ (previous_speed w <> 0 ->
          exists led,
            events = MotorSetSpeed PortA 0 :: MotorSetSpeed PortB 0 :: led).
Proof.
  intros config fmt fuel w pressed_buttons rest Hrc Hpolls Hstop.
  cbn [repeat app] in Hpolls.
  unfold _handle_speed_control.
  unfold bind at 1, get at 1.
  unfold bind at 1. unfold is_button_pressed at 1.
  rewrite Hrc, Hpolls. cbn.
  destruct (existsb (ButtonAction.eqb (button_mapping config UP))
              pressed_buttons); cbn.
  - unfold bind at 1. unfold bind at 1. unfold is_button_pressed at 1. cbn.
    rewrite Hrc. cbn. rewrite Hstop. cbn.
    unfold bind at 1. unfold is_button_pressed at 1. cbn. rewrite Hrc. cbn.
    destruct (existsb (ButtonAction.eqb (button_mapping config DOWN))
                pressed_buttons); cbn.
    + unfold bind at 1. unfold bind at 1. unfold is_button_pressed at 1. cbn.
      rewrite Hrc. cbn. rewrite Hstop. cbn.
      unfold bind at 1. unfold is_button_pressed at 1. cbn. rewrite Hrc. cbn.
      rewrite Hstop. cbn.
      match goal with
      | |- context [(_ ;; _) ?w0] =>
          destruct (stop_sequence config fmt w0)
            as (w' & events & E & H0 & H1 & _ & _ & _ & H2 & H3 & H4)
      end.
      exists w', events. split; [exact E|]. auto.
    + unfold bind at 1. unfold bind at 1. unfold is_button_pressed at 1. cbn.
      rewrite Hrc. cbn. rewrite Hstop. cbn.
      match goal with
      | |- context [(_ ;; _) ?w0] =>
          destruct (stop_sequence config fmt w0)
            as (w' & events & E & H0 & H1 & _ & _ & _ & H2 & H3 & H4)
      end.
      exists w', events. split; [exact E|]. auto.
  - unfold bind at 1. unfold bind at 1. unfold is_button_pressed at 1. cbn.
    rewrite Hrc. cbn.
    destruct (existsb (ButtonAction.eqb (button_mapping config DOWN))
                pressed_buttons); cbn.
    + unfold bind at 1. unfold bind at 1. unfold is_button_pressed at 1. cbn.
      rewrite Hrc. cbn. rewrite Hstop. cbn.
      unfold bind at 1. unfold is_button_pressed at 1. cbn. rewrite Hrc. cbn.
      rewrite Hstop. cbn.
      match goal with
      | |- context [(_ ;; _) ?w0] =>
          destruct (stop_sequence config fmt w0)
            as (w' & events & E & H0 & H1 & _ & _ & _ & H2 & H3 & H4)
      end.
      exists w', events. split; [exact E|]. auto.
    + unfold bind at 1. unfold bind at 1. unfold is_button_pressed at 1. cbn.
      rewrite Hrc. cbn. rewrite Hstop. cbn.
      match goal with
      | |- context [(_ ;; _) ?w0] =>
          destruct (stop_sequence config fmt w0)
            as (w' & events & E & H0 & H1 & _ & _ & _ & H2 & H3 & H4)
      end.
      exists w', events. split; [exact E|]. auto.
Qed.

Lemma stop_button_wins_witness :
  let config := default_configuration in
  let held := Pressed [ButtonAction.A_PLUS; ButtonAction.A_STOP] in
  let w := set_previous_speed 40
             (set_current_speed 40
                (initial_world config false [held; held; held; held; held])) in
  (remote_controller w = mkRemoteController true true
   /\ previous_speed w <> 0)
  /\ exists w' led,
       _handle_speed_control config binary64 0 w = Returns tt w'
       /\ current_speed w' = 0
       /\ trace w' =
          (MotorSetSpeed PortA 0 :: MotorSetSpeed PortB 0 :: led) ++ [Wait 100].
Proof.
  cbv zeta. split; [split; [reflexivity | cbn; lia]|].
  destruct (stop_button_wins default_configuration binary64 0%nat
              (set_previous_speed 40
                 (set_current_speed 40
                    (initial_world default_configuration false
                       (repeat
                          (Pressed [ButtonAction.A_PLUS; ButtonAction.A_STOP])
                          5))))
              [ButtonAction.A_PLUS; ButtonAction.A_STOP] []
              eq_refl eq_refl eq_refl)
    as (w' & events & E & Hcs & _ & Htrace & _ & Hsent).
  destruct (Hsent ltac:(cbn; lia)) as [led ->].
  exists w', led. split; [exact E|]. split; [exact Hcs|exact Htrace].
Defined.

(** *** The profile switch *)

(** The controller after [count] polls that went through. *)
Lemma switch_pressed config w pressed_buttons rest :
  remote_controller w = mkRemoteController true true ->
  polls w = Pressed pressed_buttons :: rest ->
  is_button_pressed (button_mapping config SWITCH) w
  = Returns
      (existsb (ButtonAction.eqb (button_mapping config SWITCH))
         pressed_buttons)
      (set_polls rest w).
Proof.
  intros Hrc Hpolls. unfold is_button_pressed. now rewrite Hrc, Hpolls.
Qed.

(** X9.  Switching the profile leaves the speed alone: on a press of the
    switch button [_handle_profile_switch] toggles the profile between 1
    and 2, updates the remote's LED and waits for the release, but sends
    nothing to the motors and does not change [current_speed], also when
    that speed is above the new profile's [max_speed]. *)
Theorem profile_switch_keeps_speed :
  forall config fmt fuel w pressed_buttons rest,
    remote_controller w = mkRemoteController true true ->
    polls w = Pressed pressed_buttons :: rest ->
    existsb (ButtonAction.eqb (button_mapping config SWITCH)) pressed_buttons
      = true ->
    current_speed w = 0
      \/ max_speed (_get_current_profile config
                      (set_current_profile (switched (current_profile w)) w))
         <> 0 ->
    (List.length rest < fuel)%nat ->
    exists w' color waits,
      _handle_profile_switch config fmt fuel w = Returns tt w'
      /\ current_profile w' = switched (current_profile w)
      /\ current_speed w' = current_speed w
      /\ previous_speed w' = previous_speed w
      /\ light_value w' = light_value w
      /\ trace w' = trace w ++ RemoteLed color :: repeat (Wait 100) waits.
Proof.
  intros config fmt fuel w pressed_buttons rest Hrc Hpolls Hswitch Hsafe
    Hfuel.
  unfold _handle_profile_switch.
  rewrite (bind_returns _ _ _ _ _
             (switch_pressed config w pressed_buttons rest Hrc Hpolls)).
  rewrite Hswitch. cbn [when].
  unfold blink_timer_reset. run_m. rewrite Hrc. cbn.
  match goal with
  | |- context [_get_led_color_for_speed _ _ ?s ?w1] =>
      destruct (led_color_returns config fmt s w1)
        as (color & w2 & E & Hk & Hprev & Hclk & Htrace)
  end.
  { exact Hsafe. }
  rewrite E.
  unfold controls in Hk; cbn in Hk, Hprev, Htrace.
  injection Hk as Hcs Hprof Hlv Hhl Hrc2 Hpolls2.
  rewrite Hrc2, Hrc. cbn.
  match goal with
  | |- context [wait_released _ ?a ?w3] =>
      destruct (wait_released_fields a fuel w3)
        as (w' & waits & E3 & Hcs3 & Hprev3 & Hprof3 & Hlv3 & _ & _ & _
            & Htr3 & _)
  end.
  { cbn. rewrite Hpolls2. exact Hfuel. }
  exists w', color, waits. split; [exact E3|].
  cbn in Hcs3, Hprev3, Hprof3, Hlv3, Htr3.
  rewrite Hcs3, Hprev3, Hprof3, Hlv3, Htr3, Hcs, Hprev, Hprof, Hlv, Htrace.
  unfold switched. rewrite <- app_assoc. auto.
Qed.

Lemma profile_switch_keeps_speed_witness :
  let config := default_configuration in
  let w := set_current_profile 2
             (set_previous_speed 500
                (set_current_speed 500
                   (initial_world config false
                      [Pressed [ButtonAction.CENTER]]))) in
  (remote_controller w = mkRemoteController true true
   /\ max_speed (profile_a config) <> 0)
  /\ exists w',
       _handle_profile_switch config binary64 1 w = Returns tt w'
       /\ current_profile w' = 1
       /\ current_speed w' = 500
       /\ max_speed (_get_current_profile config w') = 100.
Proof.
  cbv zeta. split; [split; [reflexivity | cbn; lia]|].
  destruct (profile_switch_keeps_speed default_configuration binary64 1%nat
              (set_current_profile 2
                 (set_previous_speed 500
                    (set_current_speed 500
                       (initial_world default_configuration false
                          [Pressed [ButtonAction.CENTER]]))))
              [ButtonAction.CENTER] [] eq_refl eq_refl eq_refl
              ltac:(right; cbn; lia) ltac:(cbn; lia))
    as (w' & color & waits & E & Hprof & Hcs & _).
  exists w'. split; [exact E|]. split; [exact Hprof|]. split; [exact Hcs|].
  unfold _get_current_profile. rewrite Hprof. reflexivity.
Defined.

(** X10.  At rest, the new profile shows at once: with speed-based LEDs
    and blinking on, a press of the switch button at speed 0 puts the new
    profile's indicator colour on the remote's LED right away (not the
    stopped colour, whatever the blink showed before), and restarts the
    blink timer from that instant. *)
Theorem profile_switch_shows_indicator :
  forall config fmt fuel w pressed_buttons rest,
    remote_controller w = mkRemoteController true true ->
    polls w = Pressed pressed_buttons :: rest ->
    existsb (ButtonAction.eqb (button_mapping config SWITCH)) pressed_buttons
      = true ->
    current_speed w = 0 ->
    use_speed_based_leds config = true ->
    blink_profile_when_stopped config = true ->
    (List.length rest < fuel)%nat ->
    let style :=
      if switched (current_profile w) =? 1 then led_speed_profile_a config
      else led_speed_profile_b config in
    exists w' waits,
      _handle_profile_switch config fmt fuel w = Returns tt w'
      /\ trace w' =
         trace w ++ RemoteLed (blink_color style true)
                    :: repeat (Wait 100) waits
      /\ led_blink_state w' = true
      /\ blink_timer w' = mkTimer true (blink_interval_ms style) (clock w).
Proof.
  intros config fmt fuel w pressed_buttons rest Hrc Hpolls Hswitch Hzero
    Hleds Hblink Hfuel style.
  unfold _handle_profile_switch.
  rewrite (bind_returns _ _ _ _ _
             (switch_pressed config w pressed_buttons rest Hrc Hpolls)).
  rewrite Hswitch. cbn [when].
  unfold blink_timer_reset. run_m. rewrite Hrc. cbn.
  rewrite led_color_unfold. cbv zeta.
  rewrite Hleds, Hblink. cbn [negb].
  rewrite Hzero. cbn [Z.abs Z.eqb].
  rewrite stopped_led_color_unfold. cbn.
  rewrite Hrc. cbn.
  fold (switched (current_profile w)). fold style.
  match goal with
  | |- context [wait_released _ ?a ?w3] =>
      destruct (wait_released_fields a fuel w3)
        as (w' & waits & E3 & _ & _ & _ & _ & _ & Hbs & Hbt & Htr & _)
  end.
  { cbn. exact Hfuel. }
  exists w', waits. split; [exact E3|].
  cbn in Hbs, Hbt, Htr. rewrite Hbs, Hbt, Htr, <- app_assoc. auto.
Qed.

Lemma profile_switch_shows_indicator_witness :
  let config := default_configuration in
  let w := initial_world config false
             [Pressed [ButtonAction.CENTER]; Pressed [ButtonAction.CENTER]] in
  (remote_controller w = mkRemoteController true true
   /\ current_speed w = 0)
  /\ exists w' waits,
       _handle_profile_switch config binary64 2 w = Returns tt w'
       /\ trace w' =
          RemoteLed (Color.scaled Color.RED 60) :: repeat (Wait 100) waits
       /\ led_blink_state w' = true.
Proof.
  cbv zeta. split; [split; reflexivity|].
  destruct (profile_switch_shows_indicator default_configuration binary64
              2%nat
              (initial_world default_configuration false
                 [Pressed [ButtonAction.CENTER];
                  Pressed [ButtonAction.CENTER]])
              [ButtonAction.CENTER] [Pressed [ButtonAction.CENTER]]
              eq_refl eq_refl eq_refl eq_refl eq_refl eq_refl
              ltac:(cbn; lia))
    as (w' & waits & E & Htrace & Hblink & _).
  exists w', waits. auto.
Defined.

(** *** The one exception *)

(** X11.  The only way the LED code fails: [_get_led_color_for_speed]
    raises ZeroDivisionError exactly when speed-based LEDs are on, the
    speed is not 0 and the active profile has [max_speed = 0]; in every
    other case it returns a colour. *)
Theorem led_color_raises_only_on_zero_max_speed :
  forall config fmt speed w,
    ((exists w',
        _get_led_color_for_speed config fmt speed w
          = Raises ZeroDivisionError w')
     <-> (use_speed_based_leds config = true
          /\ speed <> 0
          /\ max_speed (_get_current_profile config w) = 0))
    /\ (use_speed_based_leds config = false
        \/ speed = 0
        \/ max_speed (_get_current_profile config w) <> 0 ->
        exists color w',
          _get_led_color_for_speed config fmt speed w = Returns color w').
Proof.
  intros config fmt speed w. split.
  - rewrite led_color_unfold. cbv zeta.
    unfold speed_percentage, truediv.
    destruct (use_speed_based_leds config); cbn [negb].
    + destruct (Z.abs speed =? 0) eqn:Habs.
      * apply Z.eqb_eq in Habs.
        split.
        -- intros [w' H]. destruct (blink_profile_when_stopped config);
             [rewrite stopped_led_color_unfold in H|]; discriminate.
        -- intros (_ & Hspeed & _). lia.
      * apply Z.eqb_neq in Habs.
        destruct (max_speed (_get_current_profile config w) =? 0) eqn:Hmax.
        -- apply Z.eqb_eq in Hmax. split; [|eauto].
           intros _. repeat split; auto. lia.
        -- apply Z.eqb_neq in Hmax. split.
           ++ intros [w' H]. discriminate.
           ++ intros (_ & _ & H). contradiction.
    + split; [intros [w' H]|intros (H & _)]; discriminate.
  - intros [Hoff|Hsafe].
    + rewrite led_color_unfold. cbv zeta. rewrite Hoff. cbn [negb].
      eauto.
    + destruct (led_color_returns config fmt speed w Hsafe)
        as (color & w' & E & _).
      eauto.
Qed.

Lemma led_color_raises_only_on_zero_max_speed_witness :
  exists color w',
    _get_led_color_for_speed default_configuration binary64 55
      (initial_world default_configuration false [])
    = Returns color w'.
Proof.
  apply (proj2 (led_color_raises_only_on_zero_max_speed
                  default_configuration binary64 55
                  (initial_world default_configuration false []))).
  right. right. cbn. lia.
Defined.

(** *** Losing the remote *)

(** X12.  The watchdog: when the connection check fails and
    [watchdog_enabled] is set, [_handle_remote_connection] stops the
    train before it tries to reconnect: the speed is set to 0, both
    motors are sent 0 if they were running, the stop is broadcast if
    broadcasting is on, and the remote's LED is left alone; the hub light
    goes to the not-connected colour. *)
Theorem watchdog_stops_train :
  forall config fmt found w rest,
    watchdog_enabled config = true ->
    remote (remote_controller w) = true ->
    polls w = PollOSError :: rest ->
    exists w',
      _handle_remote_connection config fmt found w
        = Returns (led_not_connected config) w'
      /\ current_speed w' = 0
      /\ previous_speed w' = 0
      /\ connected (remote_controller w') = found
      /\ polls w' = rest
      /\ trace w' =
         trace w
         ++ (if previous_speed w =? 0 then []
             else [MotorSetSpeed PortA 0; MotorSetSpeed PortB 0]
                  ++ (if should_broadcast config
                      then [Broadcast 0 (light_value w)] else [])).
Proof.
  intros config fmt found w rest Hwatchdog Hremote Hpolls.
  unfold _handle_remote_connection, test_connection, set_connected,
    reconnect, connect.
  unfold bind at 1. rewrite Hremote, Hpolls. cbn [negb].
  unfold bind at 1, modify at 1. rewrite Hwatchdog. cbn [when].
  unfold bind at 1. unfold bind at 1, modify at 1.
  match goal with
  | |- context [_update_motor_speeds _ _ ?w0] => set (w1 := w0)
  end.
  destruct (Z.eq_dec (previous_speed w) 0) as [Hstopped|Hmoving].
  - rewrite (update_motor_speeds_same config fmt w1) by (cbn; congruence).
    apply Z.eqb_eq in Hstopped as Hb. rewrite Hb, app_nil_r.
    destruct found; run_m; eexists; (split; [reflexivity|]); cbn; auto.
  - destruct (update_motor_speeds_on_change config fmt w1)
      as (w2 & led & E & Hk & Hprev & _ & Htrace & Hled).
    { cbn. congruence. }
    { left. reflexivity. }
    rewrite E.
    unfold controls in Hk; cbn in Hk, Hprev, Htrace, Hled.
    injection Hk as Hcs _ _ _ Hrc Hp. subst led.
    apply Z.eqb_neq in Hmoving as Hb. rewrite Hb.
    destruct found; run_m; eexists; (split; [reflexivity|]); cbn;
      rewrite ?Hcs, ?Hprev, ?Hp, ?Htrace; auto.
Qed.

Lemma watchdog_stops_train_witness :
  let config := {|
    profile_a := profile_a default_configuration;
    profile_b := profile_b default_configuration;
    motor_a_direction := 1;
    motor_b_direction := -1;
    auto_acceleration := true;
    watchdog_enabled := true;
    should_broadcast := true;
    broadcast_channel := 1;
    initial_light_value := 0;
    button_mapping := default_button_mapping;
    led_connected := led_connected default_configuration;
    led_not_connected := led_not_connected default_configuration;
    led_speed_profile_a := led_speed_profile_a default_configuration;
    led_speed_profile_b := led_speed_profile_b default_configuration;
    use_speed_based_leds := true;
    blink_profile_when_stopped := true |} in
  let w := set_previous_speed 60
             (set_current_speed 60 (initial_world config false [PollOSError])) in
  (watchdog_enabled config = true /\ polls w = [PollOSError])
  /\ exists w',
       _handle_remote_connection config binary64 false w
         = Returns (led_not_connected config) w'
       /\ current_speed w' = 0
       /\ trace w' =
          [MotorSetSpeed PortA 0; MotorSetSpeed PortB 0; Broadcast 0 0].
Proof.
  cbv zeta. split; [split; reflexivity|].
  match goal with
  | |- exists w', _handle_remote_connection ?c _ _ ?w = _ /\ _ =>
      destruct (watchdog_stops_train c binary64 false w []
                  eq_refl eq_refl eq_refl)
        as (w' & E & Hcs & _ & _ & _ & Htrace)
  end.
  exists w'. split; [exact E|]. split; [exact Hcs|exact Htrace].
Defined.

(** X13.  Without the watchdog (the default) a lost remote does not
    stop the train: a turn of the main loop whose connection check fails
    and whose reconnection fails marks the controller disconnected, runs
    none of the button handlers and waits 10 ms; speed, profile and light
    stay as they are and nothing is sent to the motors or broadcast. *)
Theorem lost_remote_without_watchdog_keeps_running :
  forall config fmt fuel w rest,
    watchdog_enabled config = false ->
    remote (remote_controller w) = true ->
    polls w = PollOSError :: rest ->
    run_iteration config fmt fuel false w
    = Returns (led_not_connected config)
        (set_trace (trace w ++ [Wait 10])
           (set_clock (clock w + 10)
              (set_polls rest
                 (set_remote_controller (mkRemoteController true false) w)))).
Proof.
  intros config fmt fuel w rest Hwatchdog Hremote Hpolls.
  unfold run_iteration, _handle_remote_connection, test_connection,
    set_connected, reconnect, connect.
  run_m. rewrite Hremote, Hpolls. cbn. rewrite Hwatchdog. cbn.
  rewrite Hremote. reflexivity.
Qed.

Lemma lost_remote_without_watchdog_keeps_running_witness :
  let config := default_configuration in
  let held := Pressed [ButtonAction.A_STOP] in
  let w := set_previous_speed 60
             (set_current_speed 60
                (initial_world config false [PollOSError; held; held])) in
  (watchdog_enabled config = false /\ polls w = [PollOSError; held; held])
  /\ exists w',
       run_iteration config binary64 0 false w
         = Returns (led_not_connected config) w'
       /\ current_speed w' = 60
       /\ trace w' = [Wait 10]
       /\ polls w' = [held; held].
Proof.
  cbv zeta. split; [split; reflexivity|].
  eexists. split.
  - apply (lost_remote_without_watchdog_keeps_running default_configuration
             binary64 0%nat
             (set_previous_speed 60
                (set_current_speed 60
                   (initial_world default_configuration false
                      [PollOSError; Pressed [ButtonAction.A_STOP];
                       Pressed [ButtonAction.A_STOP]])))
             [Pressed [ButtonAction.A_STOP]; Pressed [ButtonAction.A_STOP]]);
      reflexivity.
  - repeat split; reflexivity.
Defined.

(** *** A turn of the loop always returns *)


Section Turn.

Variable config : Configuration.
Variable fmt : FloatFormat.
Hypothesis profile_a_sound : max_speed (profile_a config) <> 0.
Hypothesis profile_b_sound : max_speed (profile_b config) <> 0.











End Turn.




End MainHubMore.

(* ================================================================== *)
(** ** More on the observer hub: what reaches the motors and lights *)
(* ================================================================== *)

Module ObserverMore.
Import PyNum Devices ObserverHub ObserverTrace ObserverFacts.

#[local] Arguments Z.eqb : simpl never.
#[local] Arguments Z.ltb : simpl never.

(** *** Lists of commands *)

Lemma last_default_irrelevant {A} (x : A) xs d d' :
  last (x :: xs) d = last (x :: xs) d'.
Proof.
  revert x. induction xs as [|y xs IH]; intros x; [reflexivity|].
  change (last (y :: xs) d = last (y :: xs) d'). apply IH.
Qed.

Lemma last_app_default {A} (xs ys : list A) d :
  last (xs ++ ys) d = last ys (last xs d).
Proof.
  revert d. induction xs as [|x xs IH]; intros d; [reflexivity|].
  destruct xs as [|x' xs].
  - destruct ys as [|y ys]; [reflexivity|].
    change (last (y :: ys) d = last (y :: ys) x).
    apply last_default_irrelevant.
  - change (last ((x :: x' :: xs) ++ ys) d) with (last ((x' :: xs) ++ ys) d).
    change (last (x :: x' :: xs) d) with (last (x' :: xs) d).
    apply IH.
Qed.

Lemma changes_only_app previous xs ys :
  changes_only previous xs ->
  changes_only (last xs previous) ys ->
  changes_only previous (xs ++ ys).
Proof.
  revert previous. induction xs as [|x xs IH]; intros previous Hxs Hys.
  - exact Hys.
  - destruct Hxs as [Hx Hxs]. split; [exact Hx|].
    apply IH; [exact Hxs|].
    destruct xs as [|x' xs]; [exact Hys|].
    now rewrite (last_default_irrelevant x' xs x previous).
Qed.

(** *** One turn *)

Lemma validate_data_in_range config data speed light :
  _validate_data config data = Some (speed, light) ->
  Z.abs speed <= Z.abs (max_speed_value config)
  /\ 0 <= light <= Z.max 0 (max_light_value config).
Proof.
  unfold _validate_data.
  destruct (unpack_pair data) as [[s l]|]; [|discriminate].
  destruct (is_number s); [|discriminate].
  destruct (is_number l); [|discriminate].
  cbn. destruct (int_of s); [|discriminate].
  destruct (int_of l); [|discriminate].
  intros H. injection H as <- <-. lia.
Qed.

Lemma receive_data_fields config observed h :
  current_speed (snd (receive_data config observed h)) = current_speed h
  /\ previous_speed (snd (receive_data config observed h))
     = previous_speed h
  /\ current_light_value (snd (receive_data config observed h))
     = current_light_value h
  /\ has_lights (snd (receive_data config observed h)) = has_lights h
  /\ clock (snd (receive_data config observed h)) = clock h
  /\ match fst (receive_data config observed h) with
     | Some (speed, light) =>
         Z.abs speed <= Z.abs (max_speed_value config)
         /\ 0 <= light <= Z.max 0 (max_light_value config)
     | None => True
     end.
Proof.
  unfold receive_data.
  destruct observed as [data|]; [|cbn; auto 10].
  assert (Hvalid : match _validate_data config data with
                   | Some (speed, light) =>
                       Z.abs speed <= Z.abs (max_speed_value config)
                       /\ 0 <= light <= Z.max 0 (max_light_value config)
                   | None => True
                   end).
  { destruct (_validate_data config data) as [[speed light]|] eqn:E;
      [|exact I].
    exact (validate_data_in_range config data speed light E). }
  destruct data; cbn; auto 10.
Qed.

Ltac all_in_range :=
  repeat (apply Forall_cons; [cbn; try lia; exact I|]); apply Forall_nil.

(** What a turn sends, read off the hub before and after it. *)
Lemma run_iteration_summary config observed h :
  let h' := fst (run_iteration config observed h) in
  let events := snd (run_iteration config observed h) in
  has_lights h' = has_lights h
  /\ speeds_sent true events =
     (if previous_speed h' =? previous_speed h then []
      else [previous_speed h'])
  /\ speeds_sent false events = speeds_sent true events
  /\ lights_sent events =
     (if current_light_value h' =? current_light_value h then []
      else [current_light_value h'])
  /\ (has_lights h = false -> current_light_value h' = current_light_value h)
  /\ Forall (event_in_range config) events.
Proof.
  cbv zeta. unfold run_iteration.
  destruct (receive_data_fields config observed h)
    as (_ & Hprev & Hlight & Hlights & _ & Hrange).
  destruct (receive_data config observed h) as [received h1].
  cbn [fst snd] in *.
  rewrite <- Hprev, <- Hlight, <- Hlights. clear Hprev Hlight Hlights.
  unfold _update_connection_status, _update_motor_speeds, _update_lights,
    wait.
  destruct received as [[speed light]|].
  - destruct Hrange as [Hspeed Hbright].
    destruct (speed =? previous_speed h1) eqn:Es;
      destruct (light =? current_light_value h1) eqn:El;
      destruct (has_lights h1) eqn:Eh;
      destruct (is_connected config h1);
      cbn; rewrite ?Es, ?El, ?Eh, ?Z.eqb_refl; cbn;
      rewrite ?Es, ?El, ?Eh, ?Z.eqb_refl; cbn;
      repeat split; auto; try discriminate; all_in_range.
  - destruct (is_connected config h1); cbn;
      [rewrite !Z.eqb_refl; repeat split; auto; all_in_range|].
    destruct (current_speed h1 =? 0); cbn.
    + rewrite !Z.eqb_refl; repeat split; auto; all_in_range.
    + destruct (0 =? previous_speed h1) eqn:Ez; cbn;
        rewrite ?Ez, ?Z.eqb_refl; cbn;
        repeat split; auto; all_in_range.
Qed.

(** *** The loop *)

Lemma speeds_sent_app port_a xs ys :
  speeds_sent port_a (xs ++ ys) = speeds_sent port_a xs ++ speeds_sent port_a ys.
Proof. apply flat_map_app. Qed.

Lemma lights_sent_app xs ys :
  lights_sent (xs ++ ys) = lights_sent xs ++ lights_sent ys.
Proof. apply flat_map_app. Qed.

Lemma hub_lights_app xs ys :
  hub_lights (xs ++ ys) = hub_lights xs ++ hub_lights ys.
Proof. apply flat_map_app. Qed.

(** Appending what later turns send to what a turn sent: nothing, or the
    one new value. *)
Lemma changes_only_turn (now before : Z) later :
  changes_only now later ->
  changes_only before
    ((if now =? before then [] else [now]) ++ later)
  /\ last later now
     = last ((if now =? before then [] else [now]) ++ later) before.
Proof.
  intros Hlater. destruct (Z.eqb_spec now before) as [->|Hne].
  - split; [exact Hlater|reflexivity].
  - split; [split; [exact Hne|exact Hlater]|].
    now rewrite last_app_default.
Qed.

Lemma run_loop_summary config observations : forall h,
  let h' := fst (run_loop config observations h) in
  let events := snd (run_loop config observations h) in
  has_lights h' = has_lights h
  /\ speeds_sent false events = speeds_sent true events
  /\ changes_only (previous_speed h) (speeds_sent true events)
  /\ previous_speed h' = last (speeds_sent true events) (previous_speed h)
  /\ changes_only (current_light_value h) (lights_sent events)
  /\ current_light_value h'
     = last (lights_sent events) (current_light_value h)
  /\ (has_lights h = false -> lights_sent events = [])
  /\ Forall (event_in_range config) events.
Proof.
  induction observations as [|observed rest IH]; intros h; cbv zeta.
  - cbn. repeat split; auto.
  - cbn [run_loop].
    pose proof (run_iteration_summary config observed h) as Hturn.
    cbv zeta in Hturn.
    destruct (run_iteration config observed h) as [h1 events1].
    cbn [fst snd] in Hturn.
    destruct Hturn as (Hl1 & Hs1 & Hb1 & Hli1 & Hno1 & Hr1).
    specialize (IH h1). cbv zeta in IH.
    destruct (run_loop config rest h1) as [h2 events2].
    cbn [fst snd] in *.
    destruct IH as (Hl2 & Hb2 & Hc2 & Hp2 & Hlc2 & Hlp2 & Hno2 & Hr2).
    rewrite !speeds_sent_app, lights_sent_app, Hb1, Hb2, Hs1, Hli1.
    destruct (changes_only_turn (previous_speed h1) (previous_speed h)
                (speeds_sent true events2) Hc2) as [Hc Hp].
    destruct (changes_only_turn (current_light_value h1)
                (current_light_value h) (lights_sent events2) Hlc2)
      as [Hlc Hlp].
    split; [congruence|]. split; [reflexivity|].
    split; [exact Hc|]. split; [congruence|].
    split; [exact Hlc|]. split; [congruence|].
    split; [|apply Forall_app; split; assumption].
    intros Hnone. rewrite (Hno1 Hnone), Z.eqb_refl.
    apply Hno2. congruence.
Qed.

Lemma run_unfold config observations h :
  run config observations h
  = (fst (run_loop config observations h),
     HubLight (led_not_receiving config)
     :: snd (run_loop config observations h)).
Proof.
  unfold run, _update_connection_status.
  now destruct (run_loop config observations h).
Qed.

(** The calls behind an event in range are in range, for devices that turn
    one way or the other. *)
Lemma observer_commands_in_range config fmt motors e :
  Z.abs (direction (fst motors)) = 1 ->
  Z.abs (direction (snd motors)) = 1 ->
  event_in_range config e ->
  Forall (command_in_range (Z.abs (max_speed_value config)))
    (observer_commands fmt motors e).
Proof.
  intros Ha Hb Hrange.
  assert (Hdir : forall p, Z.abs (direction (device_at motors p)) = 1)
    by (intros [|]; assumption).
  destruct e as [p speed|p brightness| |]; cbn in *;
    try apply Forall_nil.
  - specialize (Hdir p). unfold observer_set_speed.
    destruct (device_object (device_at motors p)); cbn;
      [|apply Forall_nil].
    destruct (device_type (device_at motors p)); cbn;
      try apply Forall_nil;
      destruct (Z.eqb_spec speed 0); cbn;
      repeat (apply Forall_cons; [cbn; auto; try nia|]);
      try apply Forall_nil.
  - unfold observer_set_light_brightness.
    destruct (device_type (device_at motors p)); cbn;
      try apply Forall_nil.
    destruct (device_object (device_at motors p)); cbn;
      [|apply Forall_nil].
    destruct (Z.eqb_spec brightness 0); cbn;
      (apply Forall_cons; [cbn; auto; try lia|apply Forall_nil]).
Qed.

(** X15.  Whatever the observer hub receives, in any order and of any
    shape, what it passes to its motors and lights stays in range: every
    speed within the maximal speed of the configuration (taken in absolute
    value), every brightness between 0 and its maximal brightness (or 0 if
    that is negative).  On devices that turn one way or the other
    (direction 1 or -1) a DC motor only ever gets a nonzero duty within that
    maximal speed, and a light that is switched on a brightness from 1 to
    100. *)
Theorem observer_commands_stay_in_range config fmt motors observations h :
  Z.abs (direction (fst motors)) = 1 ->
  Z.abs (direction (snd motors)) = 1 ->
  Forall (event_in_range config) (snd (run config observations h))
  /\ Forall (command_in_range (Z.abs (max_speed_value config)))
       (flat_map (observer_commands fmt motors)
          (snd (run config observations h))).
Proof.
  intros Ha Hb.
  assert (Hevents : Forall (event_in_range config)
                      (snd (run config observations h))).
  { rewrite run_unfold. cbn [snd].
    apply Forall_cons; [exact I|].
    apply (run_loop_summary config observations h). }
  split; [exact Hevents|].
  induction Hevents as [|e events He _ IH]; [apply Forall_nil|].
  cbn [flat_map]. apply Forall_app. split; [|exact IH].
  now apply (observer_commands_in_range config).
Qed.

Lemma observer_commands_stay_in_range_witness :
  let config := default_configuration in
  let motors := (mkMotorDevice PortA 1 DC_MOTOR 1000 true,
                 mkMotorDevice PortB (-1) LIGHT 1000 true) in
  let observations :=
    [ObserveReturns (PyTuple [PyInt 5000; PyInt 250]);
     ObserveRaises;
     ObserveReturns (PyList [PyInt (-7); PyBool true])] in
  Forall (command_in_range 1000)
    (flat_map (observer_commands binary64 motors)
       (snd (run config observations (initial_hub config true)))).
Proof.
  cbv zeta.
  apply (proj2 (observer_commands_stay_in_range default_configuration
                  binary64
                  (mkMotorDevice PortA 1 DC_MOTOR 1000 true,
                   mkMotorDevice PortB (-1) LIGHT 1000 true)
                  [ObserveReturns (PyTuple [PyInt 5000; PyInt 250]);
                   ObserveRaises;
                   ObserveReturns (PyList [PyInt (-7); PyBool true])]
                  (initial_hub default_configuration true)
                  eq_refl eq_refl)).
Defined.

(** X16.  The observer hub sends a speed to its motors only when it differs
    from the last one sent: over any run, both ports get the same speeds in
    the same order, each one differs from the one before it (the first from
    [previous_speed] at the start), and [previous_speed] ends as the last
    speed sent. *)
Theorem observer_motors_commanded_on_change config observations h :
  let h' := fst (run config observations h) in
  let events := snd (run config observations h) in
  speeds_sent false events = speeds_sent true events
  /\ changes_only (previous_speed h) (speeds_sent true events)
  /\ previous_speed h' = last (speeds_sent true events) (previous_speed h).
Proof.
  cbv zeta. rewrite run_unfold. cbn [fst snd].
  change (HubLight (led_not_receiving config)
          :: snd (run_loop config observations h))
    with ([HubLight (led_not_receiving config)]
          ++ snd (run_loop config observations h)).
  rewrite !speeds_sent_app. cbn [speeds_sent flat_map app].
  destruct (run_loop_summary config observations h)
    as (_ & Hb & Hc & Hp & _).
  auto.
Qed.

(** X17.  The same for the lights: a brightness is sent only when it differs
    from the last one, [current_light_value] ends as the last brightness
    sent, and a hub without lights never sends one and keeps its
    [current_light_value] as it was. *)
Theorem observer_lights_commanded_on_change config observations h :
  let h' := fst (run config observations h) in
  let events := snd (run config observations h) in
  changes_only (current_light_value h) (lights_sent events)
  /\ current_light_value h'
     = last (lights_sent events) (current_light_value h)
  /\ (has_lights h = false ->
      lights_sent events = []
      /\ current_light_value h' = current_light_value h).
Proof.
  cbv zeta. rewrite run_unfold. cbn [fst snd].
  change (HubLight (led_not_receiving config)
          :: snd (run_loop config observations h))
    with ([HubLight (led_not_receiving config)]
          ++ snd (run_loop config observations h)).
  rewrite !lights_sent_app. cbn [lights_sent flat_map app].
  destruct (run_loop_summary config observations h)
    as (_ & _ & _ & _ & Hc & Hp & Hno & _).
  split; [exact Hc|]. split; [exact Hp|].
  intros Hnone. specialize (Hno Hnone). split; [exact Hno|].
  rewrite Hp, Hno. reflexivity.
Qed.

Lemma observer_lights_commanded_on_change_witness :
  let config := default_configuration in
  let observations :=
    [ObserveReturns (PyTuple [PyInt 40; PyInt 70]);
     ObserveReturns (PyTuple [PyInt 40; PyInt 0])] in
  let h := initial_hub config false in
  lights_sent (snd (run config observations h)) = []
  /\ current_light_value (fst (run config observations h))
     = current_light_value h.
Proof.
  cbv zeta.
  apply (proj2 (proj2 (observer_lights_commanded_on_change
                         default_configuration
                         [ObserveReturns (PyTuple [PyInt 40; PyInt 70]);
                          ObserveReturns (PyTuple [PyInt 40; PyInt 0])]
                         (initial_hub default_configuration false)))).
  reflexivity.
Defined.

(** *** The status light while [observe] raises *)

Lemma run_iteration_raises config h :
  let h' := fst (run_iteration config ObserveRaises h) in
  connection_established h' = connection_established h
  /\ last_received_time h' = last_received_time h
  /\ clock h' = clock h + 10
  /\ hub_lights (snd (run_iteration config ObserveRaises h))
     = [if is_connected config h then led_receiving config
        else led_not_receiving config].
Proof.
  cbv zeta.
  unfold run_iteration, receive_data, _update_connection_status,
    _update_motor_speeds, wait.
  destruct (is_connected config h); cbn; [auto|].
  destruct (current_speed h =? 0); cbn; [auto|].
  destruct (0 =? previous_speed h); cbn; auto.
Qed.

(** X18.  A call of [observe] that raises leaves the link as it is, so
    over turns in which every call raises the status light is ruled by the
    timeout alone: in the turn that starts [10 * i] ms after the first one
    the hub shows the "receiving" colour if the link was established and
    less than [connection_timeout_ms] has passed since the last sample, and
    the "not receiving" colour otherwise. *)
Theorem link_light_follows_timeout_while_observe_raises config turns : forall h,
  hub_lights (snd (run_loop config (repeat ObserveRaises turns) h))
  = map (fun i =>
           if connection_established h
              && (clock h + 10 * Z.of_nat i - last_received_time h
                  <? connection_timeout_ms config)
           then led_receiving config
           else led_not_receiving config)
      (seq 0 turns).
Proof.
  induction turns as [|turns IH]; intros h; [reflexivity|].
  cbn [repeat run_loop seq map].
  destruct (run_iteration_raises config h) as (He & Hl & Hc & Hlight).
  destruct (run_iteration config ObserveRaises h) as [h1 events1].
  cbn [fst snd] in *.
  specialize (IH h1).
  destruct (run_loop config (repeat ObserveRaises turns) h1)
    as [h2 events2].
  cbn [fst snd] in *.
  rewrite hub_lights_app, Hlight, IH. cbn [app].
  f_equal.
  - unfold is_connected. now rewrite Z.add_0_r.
  - rewrite <- seq_shift, map_map. apply map_ext. intros i.
    rewrite He, Hl, Hc, Nat2Z.inj_succ.
    now replace (clock h + 10 + 10 * Z.of_nat i)
      with (clock h + 10 * Z.succ (Z.of_nat i)) by ring.
Qed.

(** *** A sample of two integers *)

Lemma run_iteration_sample config speed light h :
  Z.abs speed <= max_speed_value config ->
  previous_speed
    (fst (run_iteration config
            (ObserveReturns (PyTuple [PyInt speed; PyInt light])) h)) = speed
  /\ speeds_sent true
       (snd (run_iteration config
               (ObserveReturns (PyTuple [PyInt speed; PyInt light])) h))
     = (if speed =? previous_speed h then [] else [speed])
  /\ speeds_sent false
       (snd (run_iteration config
               (ObserveReturns (PyTuple [PyInt speed; PyInt light])) h))
     = (if speed =? previous_speed h then [] else [speed]).
Proof.
  intros Hspeed.
  unfold run_iteration, receive_data, _validate_data,
    _update_connection_status, _update_motor_speeds, _update_lights, wait.
  cbn.
  replace (Z.max (- max_speed_value config)
             (Z.min (max_speed_value config) speed)) with speed by lia.
  destruct (Z.eqb_spec speed (previous_speed h)) as [Heq|Hne]; cbn;
    match goal with
    | |- context [if ?b then _ else _] => destruct b
    end; cbn;
    match goal with
    | |- context [if ?b then _ else _] => destruct b
    end; cbn; auto.
Qed.

End ObserverMore.

(* ================================================================== *)
(** ** The devices *)
(* ================================================================== *)

Module DeviceFacts.
Import PyNum Devices.

#[local] Arguments Z.eqb : simpl never.

(** *** Detection *)

Lemma dict_get_names_unknown device_id :
  kind_of_id device_id = UNKNOWN ->
  dict_get DEVICE_NAMES device_id = None.
Proof.
  unfold kind_of_id, DEVICE_NAMES, dict_get. cbn [existsb orb].
  repeat match goal with
         | |- context [device_id =? ?k] =>
             destruct (device_id =? k); cbn; try discriminate
         end.
  reflexivity.
Qed.

(** Case analysis on a device id against the ids the code names. *)
Ltac by_id device_id fmt Hfmt Hkind :=
  revert Hkind; unfold kind_of_id; cbn [existsb orb];
  repeat match goal with
         | |- context [device_id =? ?k] =>
             destruct (Z.eqb_spec device_id k);
               [subst device_id;
                destruct Hfmt; subst fmt; vm_compute; intros Hkind;
                solve [discriminate Hkind
                      |eexists _, _; repeat split; reflexivity]
               |cbn]
         end;
  discriminate.

Lemma detect_found fmt device_id d :
  fmt = binary64 \/ fmt = binary32 ->
  exists d' commands,
    detect_and_initialize fmt (Found device_id) d
      = Some (kind_of_id device_id, d', commands)
    /\ device_type d' = kind_of_id device_id
    /\ port d' = port d
    /\ direction d' = direction d
    /\ device_object d' =
       match kind_of_id device_id with
       | UNKNOWN => device_object d
       | _ => true
       end
    /\ max_speed d' =
       match kind_of_id device_id, dict_get MAX_SPEEDS device_id with
       | MOTOR, Some limit => 9 * limit / 10
       | _, _ => max_speed d
       end.
Proof.
  intros Hfmt.
  destruct (kind_of_id device_id) eqn:Hkind.
  5: { exfalso. revert Hkind. unfold kind_of_id.
       repeat match goal with
              | |- context [if ?b then _ else _] => destruct b
              end; discriminate. }
  4: { unfold detect_and_initialize.
       rewrite (dict_get_names_unknown device_id Hkind).
       eexists _, _. repeat split. }
  all: by_id device_id fmt Hfmt Hkind.
Qed.

(** X19.  Detection by name gives each device id its kind, on 64-bit and on
    32-bit floats alike: ids 38, 46, 47, 48, 49, 75 and 76 come out as servo
    motors, 1 and 2 as DC motors, 8 as a light and any other id as unknown,
    so the tests on the substrings "Motor", "DC" and "Light" never take a
    DC motor for a servo motor.  A servo motor gets as [max_speed] exactly
    nine tenths of its entry in [MAX_SPEEDS], rounded down; the other
    devices keep the [max_speed] they had; port and direction never
    change, and all but an unknown device get a device object. *)
Theorem detect_classifies_by_id fmt device_id d :
  fmt = binary64 \/ fmt = binary32 ->
  exists d' commands,
    detect_and_initialize fmt (Found device_id) d
      = Some (kind_of_id device_id, d', commands)
    /\ device_type d' = kind_of_id device_id
    /\ port d' = port d
    /\ direction d' = direction d
    /\ device_object d' =
       match kind_of_id device_id with
       | UNKNOWN => device_object d
       | _ => true
       end
    /\ max_speed d' =
       match kind_of_id device_id, dict_get MAX_SPEEDS device_id with
       | MOTOR, Some limit => 9 * limit / 10
       | _, _ => max_speed d
       end.
Proof. exact (detect_found fmt device_id d). Qed.
Lemma detect_classifies_by_id_witness :
  exists d' commands,
    detect_and_initialize binary32 (Found 1) (new_device PortB (-1))
      = Some (DC_MOTOR, d', commands)
    /\ device_type d' = DC_MOTOR.
Proof.
  destruct (detect_classifies_by_id binary32 1 (new_device PortB (-1))
              (or_intror eq_refl))
    as (d' & commands & E & Hkind & _).
  exists d', commands. split; [exact E|exact Hkind].
Defined.

(** *** Both programs drive a device alike *)

(** X20.  The observer hub turns a speed into the same call on a device as
    the primary hub does, for every device and speed: its extra early
    return for lights and unconnected ports changes nothing.  For the
    brightness of a light the two agree from 0 to 100; above 100 the
    observer hub caps it at 100 where the primary hub passes it on. *)
Theorem observer_drives_devices_like_primary fmt d :
  (forall speed, observer_set_speed fmt speed d = set_speed fmt speed d)
  /\ (forall brightness,
        0 <= brightness <= 100 ->
        observer_set_light_brightness brightness d
        = set_light_brightness brightness d)
  /\ (forall brightness,
        100 < brightness ->
        observer_set_light_brightness brightness d
        = set_light_brightness 100 d).
Proof.
  split; [|split].
  - intros speed. unfold observer_set_speed, set_speed.
    destruct (device_object d); cbn; [|reflexivity].
    now destruct (device_type d).
  - intros brightness Hrange.
    unfold observer_set_light_brightness, set_light_brightness.
    destruct (device_type d); try reflexivity.
    destruct (device_object d); [|reflexivity].
    destruct (brightness =? 0); [reflexivity|].
    now replace (Z.max 0 (Z.min 100 brightness)) with brightness by lia.
  - intros brightness Hrange.
    unfold observer_set_light_brightness, set_light_brightness.
    destruct (device_type d); try reflexivity.
    destruct (device_object d); [|reflexivity].
    destruct (Z.eqb_spec brightness 0); [lia|].
    now replace (Z.max 0 (Z.min 100 brightness)) with 100 by lia.
Qed.

Lemma observer_drives_devices_like_primary_witness :
  let d := mkMotorDevice PortA 1 LIGHT 1000 true in
  observer_set_light_brightness 40 d = set_light_brightness 40 d
  /\ observer_set_light_brightness 250 d = set_light_brightness 100 d.
Proof.
  cbv zeta. split.
  - apply (proj1 (proj2 (observer_drives_devices_like_primary binary64
                           (mkMotorDevice PortA 1 LIGHT 1000 true)))).
    lia.
  - apply (proj2 (proj2 (observer_drives_devices_like_primary binary64
                           (mkMotorDevice PortA 1 LIGHT 1000 true)))).
    lia.
Defined.

(** *** Start-up *)

Lemma light_by_id device_id : kind_of_id device_id = LIGHT <-> device_id = 8.
Proof.
  unfold kind_of_id. cbn [existsb orb]. split.
  - repeat match goal with
           | |- context [device_id =? ?k] =>
               destruct (Z.eqb_spec device_id k); cbn; try discriminate
           end; auto.
  - intros ->. reflexivity.
Qed.

Lemma detect_returns fmt probe d :
  fmt = binary64 \/ fmt = binary32 ->
  probe <> ProbeOSError ->
  exists kind d' commands,
    detect_and_initialize fmt probe d = Some (kind, d', commands)
    /\ device_type d' = kind
    /\ port d' = port d
    /\ (kind = LIGHT <-> probe = Found 8)
    /\ (kind = LIGHT -> device_object d' = true).
Proof.
  intros Hfmt Hprobe. destruct probe as [device_id| |]; [| |congruence].
  - destruct (detect_found fmt device_id d Hfmt)
      as (d' & commands & E & Hkind & Hport & _ & Hobject & _).
    exists (kind_of_id device_id), d', commands.
    split; [exact E|]. split; [exact Hkind|]. split; [exact Hport|].
    split.
    + rewrite light_by_id. split; [congruence|].
      intros H. now injection H.
    + intros Hlight. now rewrite Hlight in Hobject.
  - exists NOT_CONNECTED, (set_device_type NOT_CONNECTED d), [].
    repeat split; discriminate.
Qed.

(** X21.  At start-up the hub knows of lights exactly when a light (device
    id 8) sits on one of its two ports, and every light found is switched
    at once to the light value of the hub: off for 0, on at that brightness
    otherwise.  A port without a device is no error; only another OSError
    of the detection ends the start-up. *)
Theorem initialize_devices_finds_lights
    fmt probe_a probe_b light_value motors :
  fmt = binary64 \/ fmt = binary32 ->
  (probe_a = ProbeOSError \/ probe_b = ProbeOSError ->
   _initialize_devices fmt probe_a probe_b light_value motors = None)
  /\ (probe_a <> ProbeOSError -> probe_b <> ProbeOSError ->
      exists lights motors' commands,
        _initialize_devices fmt probe_a probe_b light_value motors
          = Some (lights, motors', commands)
        /\ (lights = true <-> probe_a = Found 8 \/ probe_b = Found 8)
        /\ forall p,
             device_type (device_at motors' p) = LIGHT ->
             In (if light_value =? 0 then Off (port (device_at motors p))
                 else On (port (device_at motors p)) light_value)
               commands).
Proof.
  intros Hfmt. split.
  - intros Hraised. unfold _initialize_devices.
    destruct probe_a as [id_a| |]; [| |reflexivity].
    + destruct Hraised as [Ha| ->]; [discriminate|].
      destruct (detect_returns fmt (Found id_a) (fst motors) Hfmt)
        as (kind & d' & commands & E & _); [discriminate|].
      now rewrite E.
    + destruct Hraised as [Ha| ->]; [discriminate|]. reflexivity.
  - intros Ha Hb. unfold _initialize_devices.
    destruct (detect_returns fmt probe_a (fst motors) Hfmt Ha)
      as (kind_a & device_a & commands_a & Ea & Hkind_a & Hport_a
          & Hlight_a & Hobject_a).
    destruct (detect_returns fmt probe_b (snd motors) Hfmt Hb)
      as (kind_b & device_b & commands_b & Eb & Hkind_b & Hport_b
          & Hlight_b & Hobject_b).
    rewrite Ea, Eb. eexists _, _, _. split; [reflexivity|]. split.
    + rewrite <- Hlight_a, <- Hlight_b.
      destruct kind_a, kind_b; split; auto;
        try discriminate; intros [H|H]; discriminate.
    + intros [|] Hlight; cbn [device_at fst snd] in *.
      * assert (Hk : kind_a = LIGHT) by congruence.
        rewrite Hk in *. unfold set_light_brightness.
        rewrite Hkind_a, (Hobject_a eq_refl), Hport_a.
        apply in_or_app. right. apply in_or_app. left.
        destruct (light_value =? 0); now left.
      * assert (Hk : kind_b = LIGHT) by congruence.
        rewrite Hk in *. unfold set_light_brightness.
        rewrite Hkind_b, (Hobject_b eq_refl), Hport_b.
        apply in_or_app. right. apply in_or_app. right.
        apply in_or_app. right.
        destruct (light_value =? 0); now left.
Qed.

Lemma initialize_devices_finds_lights_witness :
  let motors := (new_device PortA 1, new_device PortB (-1)) in
  exists lights motors' commands,
    _initialize_devices binary32 (Found 2) (Found 8) 30 motors
      = Some (lights, motors', commands)
    /\ (lights = true <-> Found 2 = Found 8 \/ Found 8 = Found 8).
Proof.
  cbv zeta.
  destruct (proj2 (initialize_devices_finds_lights binary32 (Found 2)
                     (Found 8) 30
                     (new_device PortA 1, new_device PortB (-1))
                     (or_intror eq_refl))
              ltac:(discriminate) ltac:(discriminate))
    as (lights & motors' & commands & E & Hlights & _).
  exists lights, motors', commands. split; [exact E|exact Hlights].
Defined.

End DeviceFacts.

(* ================================================================== *)
(** ** The two hubs and their devices together *)
(* ================================================================== *)

Module TrainFacts.
Import PyNum MainHub MainHubLoop MainHubFacts MainHubMore.

#[local] Arguments _update_motor_speeds : simpl never.
#[local] Arguments _get_led_color_for_speed : simpl never.
#[local] Arguments _get_stopped_led_color : simpl never.
#[local] Arguments accelerate_tick : simpl never.
#[local] Arguments is_button_pressed : simpl never.

(** X22.  What the primary hub broadcasts during a ramp reaches the motors
    of an observer hub unchanged: when the maximal speed of the profile is
    within [max_speed_value] of the observer, a turn of the observer's loop
    that receives one of the broadcast pairs leaves [previous_speed] at
    the broadcast speed, and sends that very speed to both motors unless
    they already have it. *)
Theorem ramp_broadcasts_reach_observer
    config fmt fuel profile direction w observer_config :
  max_speed (_get_current_profile config w) <> 0 ->
  0 < min_speed profile <= max_speed profile ->
  max_speed profile <= ObserverHub.max_speed_value observer_config ->
  (List.length (polls w) < fuel)%nat ->
  exists w' events,
    _accelerate config fmt fuel profile direction w = Returns tt w'
    /\ trace w' = trace w ++ events
    /\ forall speed light h,
         In (Broadcast speed light) events ->
         let sample :=
           ObserverHub.ObserveReturns
             (ObserverHub.PyTuple
                [ObserverHub.PyInt speed; ObserverHub.PyInt light]) in
         let turn := ObserverHub.run_iteration observer_config sample h in
         ObserverHub.previous_speed (fst turn) = speed
         /\ ObserverHub.speeds_sent true (snd turn)
            = (if speed =? ObserverHub.previous_speed h then []
               else [speed])
         /\ ObserverHub.speeds_sent false (snd turn)
            = (if speed =? ObserverHub.previous_speed h then []
               else [speed]).
Proof.
  intros Hmax Hprofile Hobserver Hfuel.
  destruct (accelerate_events config fmt fuel profile direction w
              Hmax Hprofile Hfuel)
    as (w' & events & E & _ & Htrace & Hall).
  exists w', events. split; [exact E|]. split; [exact Htrace|].
  intros speed light h Hin. cbv zeta.
  rewrite Forall_forall in Hall. specialize (Hall _ Hin).
  cbn in Hall. destruct Hall as [Hbound _].
  apply ObserverMore.run_iteration_sample. lia.
Qed.

Lemma ramp_broadcasts_reach_observer_witness :
  let config := default_configuration in
  let w := initial_world config false [] in
  exists w' events,
    _accelerate config binary64 1 (profile_a config) 1 w = Returns tt w'
    /\ trace w' = trace w ++ events.
Proof.
  cbv zeta.
  destruct (ramp_broadcasts_reach_observer default_configuration binary64
              1%nat (profile_a default_configuration) 1
              (initial_world default_configuration false [])
              ObserverHub.default_configuration)
    as (w' & events & E & Htrace & _).
  - cbn. lia.
  - cbn. lia.
  - cbn. lia.
  - cbn. lia.
  - exists w', events. split; [exact E|exact Htrace].
Defined.

(** The calls behind a legal speed keep a DC motor inside the band. *)
Lemma main_commands_in_band fmt profile motors e :
  0 < min_speed profile <= max_speed profile ->
  Z.abs (Devices.direction (fst motors)) = 1 ->
  Z.abs (Devices.direction (snd motors)) = 1 ->
  event_speed_legal profile e ->
  Forall (Devices.dc_in_band (min_speed profile) (max_speed profile))
    (Devices.main_commands fmt motors e).
Proof.
  intros Hprofile Ha Hb Hlegal.
  assert (Hdir : forall p,
            Z.abs (Devices.direction (Devices.device_at motors p)) = 1)
    by (intros [|]; assumption).
  destruct e as [p speed|p brightness| | |]; cbn in *;
    try apply Forall_nil.
  - specialize (Hdir p). destruct Hlegal as [Hhigh Hlow].
    unfold Devices.set_speed.
    destruct (Devices.device_object (Devices.device_at motors p)); cbn;
      [|apply Forall_nil].
    destruct (Devices.device_type (Devices.device_at motors p)); cbn;
      try apply Forall_nil;
      destruct (Z.eqb_spec speed 0); cbn;
      repeat (apply Forall_cons; [cbn; auto; try nia|]);
      try apply Forall_nil.
  - unfold Devices.set_light_brightness.
    destruct (Devices.device_type (Devices.device_at motors p)); cbn;
      try apply Forall_nil.
    destruct (Devices.device_object (Devices.device_at motors p)); cbn;
      [|apply Forall_nil].
    destruct (brightness =? 0); cbn;
      (apply Forall_cons; [exact I|apply Forall_nil]).
Qed.

(** X23.  A ramp never drives a DC motor inside the dead band: with
    [0 < min_speed <= max_speed] and devices that turn one way or the
    other (direction 1 or -1), every duty that reaches a DC motor during
    [_accelerate] is at least [min_speed] and at most [max_speed] in
    magnitude. *)
Theorem ramp_keeps_dc_motor_out_of_dead_band
    config fmt fuel profile direction w motors :
  max_speed (_get_current_profile config w) <> 0 ->
  0 < min_speed profile <= max_speed profile ->
  Z.abs (Devices.direction (fst motors)) = 1 ->
  Z.abs (Devices.direction (snd motors)) = 1 ->
  (List.length (polls w) < fuel)%nat ->
  exists w' events,
    _accelerate config fmt fuel profile direction w = Returns tt w'
    /\ trace w' = trace w ++ events
    /\ Forall (Devices.dc_in_band (min_speed profile) (max_speed profile))
         (flat_map (Devices.main_commands fmt motors) events).
Proof.
  intros Hmax Hprofile Ha Hb Hfuel.
  destruct (accelerate_events config fmt fuel profile direction w
              Hmax Hprofile Hfuel)
    as (w' & events & E & _ & Htrace & Hall).
  exists w', events. split; [exact E|]. split; [exact Htrace|].
  clear E Htrace.
  induction Hall as [|e events He _ IH]; [apply Forall_nil|].
  cbn [flat_map]. apply Forall_app. split; [|exact IH].
  now apply main_commands_in_band.
Qed.

Lemma ramp_keeps_dc_motor_out_of_dead_band_witness :
  let config := default_configuration in
  let profile := profile_a config in
  let w := initial_world config false [] in
  let motors := (Devices.mkMotorDevice PortA 1 Devices.DC_MOTOR 1000 true,
                 Devices.mkMotorDevice PortB (-1) Devices.DC_MOTOR 1000
                   true) in
  exists w' events,
    _accelerate config binary64 1 profile 1 w = Returns tt w'
    /\ trace w' = trace w ++ events
    /\ Forall (Devices.dc_in_band (min_speed profile) (max_speed profile))
         (flat_map (Devices.main_commands binary64 motors) events).
Proof.
  cbv zeta.
  apply (ramp_keeps_dc_motor_out_of_dead_band default_configuration
           binary64 1%nat (profile_a default_configuration) 1
           (initial_world default_configuration false [])
           (Devices.mkMotorDevice PortA 1 Devices.DC_MOTOR 1000 true,
            Devices.mkMotorDevice PortB (-1) Devices.DC_MOTOR 1000 true)).
  - cbn. lia.
  - cbn. lia.
  - reflexivity.
  - reflexivity.
  - cbn. lia.
Defined.

End TrainFacts.
